(** * datasets/reconstruction.py: the reconstruction data module

  A shallow embedding of [BaseReconstructionDataModule] and
  [Coco2014Reconstruction] together with the library behaviour they
  rely on ([os.path.join], [argparse] declarations, the samplers and
  the [DataLoader] of [torch.utils.data]).

  Python objects with mutable attributes are records threaded through
  a state-and-exception monad; an exception leaves the mutations made
  before it in place, as in Python. *)

From Stdlib Require Import List String Ascii ZArith Lia Bool Arith DecimalString.
Import ListNotations.
Open Scope string_scope.

(** ** Python values, exceptions and the state-and-exception monad *)

Module Py.

(** The exception classes that can leave this module. *)
Inductive exn : Type :=
| AssertionError
| AttributeError (name : string)
| TypeError (msg : string)
| ValueError (msg : string)
| RuntimeError (msg : string)
| IndexError
| NotImplementedError
| ArgumentError (msg : string).

Inductive result (A : Type) : Type :=
| Ok (a : A)
| Raise (e : exn).
Arguments Ok {A} a.
Arguments Raise {A} e.

(** A computation over a mutable store [S]. *)
Definition M (S A : Type) : Type := S -> result A * S.

Definition ret {S A} (a : A) : M S A := fun s => (Ok a, s).

Definition bind {S A B} (m : M S A) (k : A -> M S B) : M S B :=
  fun s =>
    match m s with
    | (Ok a, s') => k a s'
    | (Raise e, s') => (Raise e, s')
    end.

Definition raise {S A} (e : exn) : M S A := fun s => (Raise e, s).

Definition get {S} : M S S := fun s => (Ok s, s).

Definition modify {S} (f : S -> S) : M S unit := fun s => (Ok tt, f s).

Definition lift {S A} (r : result A) : M S A := fun s => (r, s).

(** [NotImplemented] is the comparison singleton, not an exception
    class: the call expression [NotImplemented()] itself raises
    [TypeError], so [raise NotImplemented()] never reaches [raise]. *)
Definition NotImplemented_call : exn :=
  TypeError "'NotImplementedType' object is not callable".

(** [bool(s)] for a [str]. *)
Definition truthy (s : string) : bool := negb (s =? EmptyString).

Definition startswith (s p : string) : bool := String.prefix p s.

Fixpoint endswith (s suf : string) : bool :=
  match s with
  | EmptyString => suf =? EmptyString
  | String _ s' => (s =? suf) || endswith s' suf
  end.

(** [str(n)] for a non-negative [int]. *)
Definition str_of_nat (n : nat) : string :=
  NilZero.string_of_uint (Nat.to_uint n).

(** [int(s)] in base ten on ASCII text: surrounding white space (tab
    to carriage return, and the space) is stripped, one sign is
    allowed, single underscores may separate digits, and a literal of
    more than 4300 digits is refused. *)
Definition is_space (c : ascii) : bool :=
  let n := nat_of_ascii c in
  ((9 <=? n)%nat && (n <=? 13)%nat) || (n =? 32)%nat.

Definition int_max_str_digits : Z := 4300.

Fixpoint count_digits (s : string) : Z :=
  match s with
  | EmptyString => 0
  | String c s' =>
      let n := nat_of_ascii c in
      if ((48 <=? n)%nat && (n <=? 57)%nat)
      then (1 + count_digits s')%Z else count_digits s'
  end.

Definition digit_of (c : ascii) : option Z :=
  let n := nat_of_ascii c in
  if ((48 <=? n)%nat && (n <=? 57)%nat) then Some (Z.of_nat (n - 48)) else None.

Fixpoint lstrip (s : string) : string :=
  match s with
  | String c s' => if is_space c then lstrip s' else s
  | EmptyString => EmptyString
  end.

Fixpoint rev_append (s acc : string) : string :=
  match s with
  | EmptyString => acc
  | String c s' => rev_append s' (String c acc)
  end.

Definition strip (s : string) : string :=
  rev_append (lstrip (rev_append (lstrip s) EmptyString)) EmptyString.

Inductive digit_state : Type := at_start | after_digit | after_underscore.

Fixpoint digits (s : string) (acc : Z) (st : digit_state) : option Z :=
  match s with
  | EmptyString =>
      match st with after_digit => Some acc | _ => None end
  | String c s' =>
      match digit_of c with
      | Some d => digits s' (10 * acc + d) after_digit
      | None =>
          if (c =? "_")%char then
            match st with
            | after_digit => digits s' acc after_underscore
            | _ => None
            end
          else None
      end
  end.

Definition int_of_digits (s : string) : result Z :=
  match digits s 0 at_start with
  | Some z =>
      if (int_max_str_digits <? count_digits s)%Z
      then Raise (ValueError
                    "Exceeds the limit (4300 digits) for integer string conversion")
      else Ok z
  | None => Raise (ValueError "invalid literal for int() with base 10")
  end.

Definition int_of_string (s : string) : result Z :=
  match strip s with
  | String "-" s' =>
      match int_of_digits s' with Ok z => Ok (- z)%Z | Raise e => Raise e end
  | String "+" s' => int_of_digits s'
  | s' => int_of_digits s'
  end.

End Py.

Import Py.

Declare Scope py_scope.
Delimit Scope py_scope with py.
Notation "x <- m ;; k" := (bind m (fun x => k))
(at level 100, m at next level, right associativity) : py_scope.
Notation "m ;;; k" := (bind m (fun _ => k))
(at level 100, right associativity) : py_scope.

(** ** os.path (POSIX flavour) *)

Module posixpath.

Definition sep : string := "/".

(** One round of the loop of [join]: how component [b] extends [path]. *)
Definition join_step (path b : string) : string :=
  if startswith b sep then b
  else if negb (truthy path) || endswith path sep then path ++ b
  else path ++ sep ++ b.

Definition join (a : string) (p : list string) : string :=
  fold_left join_step p a.

End posixpath.

(** ** argparse: option declarations and the conversion of one value *)

Module argparse.

Inductive ArgType : Type := type_str | type_int.

Inductive Value : Type :=
| VStr (s : string)
| VInt (z : Z).

Record Action : Type := mkAction {
  option_strings : list string;
  help : string;
  type : ArgType;
  required : bool;
  default : option Value;
  choices : option (list Value)
}.

Record ArgumentGroup : Type := mkGroup {
  title : string;
  _group_actions : list Action
}.

(** A group shares the action list of its parser: what is added to
    the group is registered on the parser too. *)
Record ArgumentParser : Type := mkParser {
  _actions : list Action;
  _action_groups : list ArgumentGroup
}.

Definition Value_eqb (a b : Value) : bool :=
  match a, b with
  | VStr x, VStr y => (x =? y)
  | VInt x, VInt y => (x =? y)%Z
  | _, _ => false
  end.

Definition declares (p : ArgumentParser) (opt : string) : bool :=
  existsb (fun a => existsb (String.eqb opt) (option_strings a)) (_actions p).

(** [parser.add_argument_group(title)]: the handle is the position of
    the new group. *)
Definition add_argument_group (title : string) : M ArgumentParser nat :=
  fun p =>
    (Ok (List.length (_action_groups p)),
     mkParser (_actions p) (_action_groups p ++ [mkGroup title []])%list).

Fixpoint add_to_group (gs : list ArgumentGroup) (g : nat) (a : Action)
  : list ArgumentGroup :=
  match gs, g with
  | [], _ => []
  | x :: gs', O => mkGroup (title x) (_group_actions x ++ [a])%list :: gs'
  | x :: gs', S g' => x :: add_to_group gs' g' a
  end.

(** [group.add_argument(opt, help=, type=, required=, default=)], with
    the default conflict handler, which refuses an option string that
    is already taken. *)
Definition add_argument (g : nat) (opt help : string) (ty : ArgType)
    (required : bool) (default : option Value) : M ArgumentParser unit :=
  fun p =>
    if declares p opt
    then (Raise (ArgumentError ("conflicting option string: " ++ opt)), p)
    else
      let a := mkAction [opt] help ty required default None in
      (Ok tt, mkParser (_actions p ++ [a])%list (add_to_group (_action_groups p) g a)).

(** [_get_value]: the [type] callable applied to the argument string. *)
Definition _get_value (a : Action) (arg_string : string) : result Value :=
  match type a with
  | type_str => Ok (VStr arg_string)
  | type_int =>
      match int_of_string arg_string with
      | Ok z => Ok (VInt z)
      | Raise _ => Raise (ArgumentError "invalid int value")
      end
  end.

(** [_check_value]: only a declared [choices] container rejects. *)
Definition _check_value (a : Action) (v : Value) : result unit :=
  match choices a with
  | Some cs =>
      if existsb (Value_eqb v) cs then Ok tt
      else Raise (ArgumentError "invalid choice")
  | None => Ok tt
  end.

(** [_get_values] for an action that takes exactly one argument. *)
Definition _get_values (a : Action) (arg_string : string) : result Value :=
  match _get_value a arg_string with
  | Ok v =>
      match _check_value a v with
      | Ok _ => Ok v
      | Raise e => Raise e
      end
  | Raise e => Raise e
  end.

End argparse.

(** ** torch.utils.data: samplers, batching and the loader

    As in torch 2.x: a random sampler seeds a generator of its own from
    the default generator, the batch sampler cuts with
    [itertools.islice], and every loader iterator takes a base seed. *)

Module torch.

Section WithDataset.

(** The sample type of the dataset collaborator, and the random
    generators: [raw] produces one unbounded random number and the next
    generator state, [manual_seed] is a fresh [torch.Generator()] after
    [manual_seed(seed)].  The state threaded through a pass is that of
    the default (global) generator. *)
Variable Sample : Type.
Variable Gen : Type.
Variable raw : Gen -> nat * Gen.
Variable manual_seed : nat -> Gen.

(** [sys.maxsize] of a 64-bit build. *)
Definition sys_maxsize : Z := 2 ^ 63 - 1.

(** A map-style dataset: [len] and [__getitem__] over a finite index
    range. *)
Definition Dataset : Type := list Sample.

Definition len (d : Dataset) : nat := List.length d.

Definition getitem (d : Dataset) (i : nat) : result Sample :=
  match nth_error d i with
  | Some x => Ok x
  | None => Raise IndexError
  end.

(** [SequentialSampler(data_source)] and
    [RandomSampler(data_source, replacement=True, num_samples=n)]. *)
Inductive Sampler : Type :=
| SequentialSampler (data_source : Dataset)
| RandomSampler (data_source : Dataset) (num_samples : Z).

Record BatchSampler : Type := mkBatchSampler {
  sampler : Sampler;
  batch_size : Z;
  drop_last : bool
}.

Record DataLoader : Type := mkDataLoader {
  dataset : Dataset;
  num_workers : Z;
  batch_sampler : BatchSampler
}.

(** [RandomSampler.__init__] with [replacement=True]: the sample count
    must be a positive integer. *)
Definition RandomSampler_init (data_source : Dataset) (num_samples : Z)
  : result Sampler :=
  if (num_samples <=? 0)%Z
  then Raise (ValueError "num_samples should be a positive integer value")
  else Ok (RandomSampler data_source num_samples).

(** [BatchSampler.__init__]. *)
Definition BatchSampler_init (s : Sampler) (batch_size : Z) (drop_last : bool)
  : result BatchSampler :=
  if (batch_size <=? 0)%Z
  then Raise (ValueError "batch_size should be a positive integer value")
  else Ok (mkBatchSampler s batch_size drop_last).

(** [DataLoader.__init__] for the two call shapes of this repository:
    [shuffle] is false and [drop_last] keeps its default; without an
    explicit sampler the loader walks the dataset sequentially. *)
Definition DataLoader_init (dataset : Dataset) (batch_size : Z)
    (num_workers : Z) (sampler : option Sampler) : result DataLoader :=
  if (num_workers <? 0)%Z
  then Raise (ValueError "num_workers option should be non-negative")
  else
    let s := match sampler with
             | Some s => s
             | None => SequentialSampler dataset
             end in
    match BatchSampler_init s batch_size false with
    | Ok bs => Ok (mkDataLoader dataset num_workers bs)
    | Raise e => Raise e
    end.

(** [size] draws below [high], left to right. *)
Fixpoint draw (high size : nat) (g : Gen) : list nat * Gen :=
  match size with
  | O => ([], g)
  | S k =>
      let (r, g1) := raw g in
      let (rs, g2) := draw high k g1 in
      (r mod high :: rs, g2)
  end.

(** [torch.randint(high=high, size=(size,))]: an empty range is
    refused. *)
Definition randint (high size : nat) : M Gen (list nat) :=
  fun g =>
    if (high =? 0)%nat
    then (Raise (RuntimeError "random_ expects 'from' to be less than 'to'"), g)
    else let (xs, g') := draw high size g in (Ok xs, g').

(** The [for _ in range(k)] loop of [RandomSampler.__iter__], each round
    yielding 32 indices. *)
Fixpoint randint_rounds (n k : nat) : M Gen (list nat) :=
  match k with
  | O => ret []
  | S k' =>
      (xs <- randint n 32 ;;
       ys <- randint_rounds n k' ;;
       ret (xs ++ ys)%list)%py
  end.

(** The draws of [RandomSampler.__iter__] from its own generator:
    rounds of 32, then the remainder. *)
Definition RandomSampler_draws (n : nat) (num_samples : Z) : M Gen (list nat) :=
  (xs <- randint_rounds n (Z.to_nat (num_samples / 32)) ;;
   ys <- randint n (Z.to_nat (num_samples mod 32)) ;;
   ret (xs ++ ys)%list)%py.

(** [Sampler.__iter__], as the list of the indices it yields.  A random
    sampler built without a generator takes one number from the default
    generator as the seed of a generator of its own, and draws from
    that one. *)
Definition Sampler_iter (s : Sampler) : M Gen (list nat) :=
  match s with
  | SequentialSampler d => ret (seq 0 (len d))
  | RandomSampler d num_samples =>
      fun g =>
        let n := len d in
        let (seed, g') := raw g in
        (fst (RandomSampler_draws n num_samples (manual_seed seed)), g')
  end.

(** [[*itertools.islice(it, n)]]: the next [n] items, and the rest of
    the iterator. *)
Definition islice (it : list nat) (n : nat) : list nat * list nat :=
  (firstn n it, skipn n it).

(** The [while batch:] loop of [BatchSampler.__iter__] without
    [drop_last]; [rounds] bounds the number of batches, and one more
    than the number of items is always enough. *)
Fixpoint batch_loop (rounds batch_size : nat) (it : list nat)
  : list (list nat) :=
  match rounds with
  | O => []
  | S rounds' =>
      let (batch, rest) := islice it batch_size in
      match batch with
      | [] => []
      | _ :: _ => batch :: batch_loop rounds' batch_size rest
      end
  end.

(** [BatchSampler.__iter__]: [islice] refuses a stop beyond
    [sys.maxsize] before the sampler is asked for anything. *)
Definition BatchSampler_iter (b : BatchSampler) : M Gen (list (list nat)) :=
  if (sys_maxsize <? batch_size b)%Z
  then raise (ValueError
                "Stop argument for islice() must be None or an integer: 0 <= x <= sys.maxsize.")
  else
    (idxs <- Sampler_iter (sampler b) ;;
     ret (batch_loop (S (List.length idxs)) (Z.to_nat (batch_size b)) idxs))%py.

(** The map-style fetcher: [[dataset[idx] for idx in batch]]. *)
Fixpoint fetch (d : Dataset) (batch : list nat) : result (list Sample) :=
  match batch with
  | [] => Ok []
  | idx :: rest =>
      match getitem d idx with
      | Ok x =>
          match fetch d rest with
          | Ok xs => Ok (x :: xs)
          | Raise e => Raise e
          end
      | Raise e => Raise e
      end
  end.

Fixpoint fetch_all (d : Dataset) (batches : list (list nat))
  : result (list (list Sample)) :=
  match batches with
  | [] => Ok []
  | b :: rest =>
      match fetch d b with
      | Ok x =>
          match fetch_all d rest with
          | Ok xs => Ok (x :: xs)
          | Raise e => Raise e
          end
      | Raise e => Raise e
      end
  end.

(** [iter(DataLoader)] first takes the base seed from the default
    generator. *)
Definition base_seed : M Gen nat :=
  fun g => let (seed, g') := raw g in (Ok seed, g').

(** One full pass over the loader: the index batches its iterator gets
    from the batch sampler, and the sample batches fetched for them. *)
Definition DataLoader_index_batches (dl : DataLoader) : M Gen (list (list nat)) :=
  (_seed <- base_seed ;;
   BatchSampler_iter (batch_sampler dl))%py.

Definition DataLoader_iter (dl : DataLoader) : M Gen (list (list Sample)) :=
  (batches <- DataLoader_index_batches dl ;;
   lift (fetch_all (dataset dl) batches))%py.

End WithDataset.

Arguments len {Sample} d.
Arguments getitem {Sample} d i.
Arguments SequentialSampler {Sample} data_source.
Arguments RandomSampler {Sample} data_source num_samples.
Arguments sampler {Sample} b.
Arguments batch_size {Sample} b.
Arguments drop_last {Sample} b.
Arguments dataset {Sample} d.
Arguments num_workers {Sample} d.
Arguments batch_sampler {Sample} d.
Arguments RandomSampler_init {Sample} data_source num_samples.
Arguments BatchSampler_init {Sample} s batch_size drop_last.
Arguments DataLoader_init {Sample} dataset batch_size num_workers sampler.
Arguments draw {Gen} raw high size g.
Arguments randint {Gen} raw high size.
Arguments randint_rounds {Gen} raw n k.
Arguments RandomSampler_draws {Gen} raw n num_samples.
Arguments Sampler_iter {Sample Gen} raw manual_seed s.
Arguments BatchSampler_iter {Sample Gen} raw manual_seed b.
Arguments fetch {Sample} d batch.
Arguments fetch_all {Sample} d batches.
Arguments base_seed {Gen} raw.
Arguments DataLoader_index_batches {Sample Gen} raw manual_seed dl.
Arguments DataLoader_iter {Sample Gen} raw manual_seed dl.

End torch.

(** ** datasets/reconstruction.py *)

Module reconstruction.

(** The parsed options that [__init__] reads from [args]. *)
Module args.
Record t : Type := mk {
  data_dir : string;
  train_batch_size : Z;
  eval_batch_size : Z;
  num_workers : Z;
  num_samples : Z
}.
End args.

(** What the methods below need from the class they are called on. *)
Record Class : Type := mkClass {
  __name__ : string;
  __abstractmethods__ : list string;
  _get_split_dirs : string -> result (string * string * string)
}.

Module BaseReconstructionDataModule.

(** [raise NotImplemented()] *)
Definition _get_split_dirs (data_dir : string)
  : result (string * string * string) :=
  Raise NotImplemented_call.

Definition cls : Class :=
  mkClass "BaseReconstructionDataModule" ["_get_split_dirs"] _get_split_dirs.

(** The five declarations, in source order, on the group named after
    the class. *)
Definition add_argparse_args (cls : Class)
  : M argparse.ArgumentParser unit :=
  (parser <- argparse.add_argument_group (__name__ cls) ;;
   argparse.add_argument parser "--data_dir"
     "dataset location" argparse.type_str true None ;;;
   argparse.add_argument parser "--train_batch_size"
     "batch size for training" argparse.type_int false
     (Some (argparse.VInt 16)) ;;;
   argparse.add_argument parser "--eval_batch_size"
     "batch size for validation and testing" argparse.type_int false
     (Some (argparse.VInt 64)) ;;;
   argparse.add_argument parser "--num_workers"
     "dataloader workers per DDP process" argparse.type_int false
     (Some (argparse.VInt 4)) ;;;
   argparse.add_argument parser "--num_samples"
     "number of images to sample in each training epoch" argparse.type_int false
     (Some (argparse.VInt 50000)) ;;;
   ret tt)%py.

Section WithCollaborators.

(** The collaborators outside this file: the sample type and the
    constructor of [datasets.utils.ReconstructionDataset], and
    [os.path.exists] on the file system the module runs on. *)
Variable Sample : Type.
Variable ReconstructionDataset : string -> torch.Dataset Sample.
Variable exists_ : string -> bool.

Record DataModule : Type := mkDataModule {
  train_dir : string;
  val_dir : string;
  test_dir : string;
  train_batch_size : Z;
  eval_batch_size : Z;
  num_workers : Z;
  num_samples : Z;
  train_dataset : option (torch.Dataset Sample);
  val_dataset : option (torch.Dataset Sample);
  test_dataset : option (torch.Dataset Sample)
}.

(** The instance together with what it does to the outside: the lines
    printed, and the [root_dir] of every dataset adapter constructed. *)
Record World : Type := mkWorld {
  self : DataModule;
  stdout : list string;
  constructed : list string
}.

Definition __init__ (cls : Class) (a : args.t) : result DataModule :=
  match reconstruction._get_split_dirs cls (args.data_dir a) with
  | Ok (train_dir, val_dir, test_dir) =>
      Ok (mkDataModule train_dir val_dir test_dir
            (args.train_batch_size a) (args.eval_batch_size a)
            (args.num_workers a) (args.num_samples a)
            None None None)
  | Raise e => Raise e
  end.

(** [cls(args)]: a class with abstract methods left cannot be
    instantiated. *)
Definition new (cls : Class) (a : args.t) : result World :=
  match __abstractmethods__ cls with
  | [] =>
      match __init__ cls a with
      | Ok dm => Ok (mkWorld dm [] [])
      | Raise e => Raise e
      end
  | _ :: _ => Raise (TypeError "Can't instantiate abstract class")
  end.

Definition update_self (f : DataModule -> DataModule) : M World unit :=
  modify (fun w => mkWorld (f (self w)) (stdout w) (constructed w)).

(** [self.train_dataset = d] and its two siblings. *)
Definition with_train_dataset (d : torch.Dataset Sample) (s : DataModule)
  : DataModule :=
  mkDataModule (train_dir s) (val_dir s) (test_dir s)
    (train_batch_size s) (eval_batch_size s) (num_workers s) (num_samples s)
    (Some d) (val_dataset s) (test_dataset s).

Definition with_val_dataset (d : torch.Dataset Sample) (s : DataModule)
  : DataModule :=
  mkDataModule (train_dir s) (val_dir s) (test_dir s)
    (train_batch_size s) (eval_batch_size s) (num_workers s) (num_samples s)
    (train_dataset s) (Some d) (test_dataset s).

Definition with_test_dataset (d : torch.Dataset Sample) (s : DataModule)
  : DataModule :=
  mkDataModule (train_dir s) (val_dir s) (test_dir s)
    (train_batch_size s) (eval_batch_size s) (num_workers s) (num_samples s)
    (train_dataset s) (val_dataset s) (Some d).

Definition set_train_dataset (d : torch.Dataset Sample) : M World unit :=
  update_self (with_train_dataset d).

Definition set_val_dataset (d : torch.Dataset Sample) : M World unit :=
  update_self (with_val_dataset d).

Definition set_test_dataset (d : torch.Dataset Sample) : M World unit :=
  update_self (with_test_dataset d).

(** Reading an attribute that [__init__] always sets. *)
Definition attr {A} (f : DataModule -> A) : M World A :=
  fun w => (Ok (f (self w)), w).

(** Reading an attribute that only [setup] sets. *)
Definition getattr {A} (name : string) (f : DataModule -> option A)
  : M World A :=
  fun w =>
    match f (self w) with
    | Some x => (Ok x, w)
    | None => (Raise (AttributeError name), w)
    end.

Definition print (line : string) : M World unit :=
  modify (fun w => mkWorld (self w) (stdout w ++ [line])%list (constructed w)).

(** [ReconstructionDataset(root_dir=...)] *)
Definition ReconstructionDataset_new (root_dir : string)
  : M World (torch.Dataset Sample) :=
  fun w =>
    (Ok (ReconstructionDataset root_dir),
     mkWorld (self w) (stdout w) (constructed w ++ [root_dir])%list).

Definition assert_ (b : bool) : M World unit :=
  if b then ret tt else raise AssertionError.

Definition prepare_data : M World unit :=
  (train_dir <- attr train_dir ;;
   assert_ (truthy train_dir && exists_ train_dir) ;;;
   val_dir <- attr val_dir ;;
   assert_ (truthy val_dir && exists_ val_dir) ;;;
   test_dir <- attr test_dir ;;
   assert_ (truthy test_dir && exists_ test_dir))%py.

(** [stage == s] for an [Optional[str]]. *)
Definition stage_is (stage : option string) (s : string) : bool :=
  match stage with
  | Some x => (x =? s)
  | None => false
  end.

Definition loaded (n : nat) (split : string) : string :=
  "Loaded " ++ str_of_nat n ++ " " ++ split ++ " samples".

Definition setup (stage : option string) : M World unit :=
  if stage_is stage "fit" then
    (root <- attr train_dir ;;
     d <- ReconstructionDataset_new root ;;
     set_train_dataset d ;;;
     d <- getattr "train_dataset" train_dataset ;;
     print (loaded (torch.len d) "train") ;;;
     root <- attr val_dir ;;
     d <- ReconstructionDataset_new root ;;
     set_val_dataset d ;;;
     d <- getattr "val_dataset" val_dataset ;;
     print (loaded (torch.len d) "val"))%py
  else if stage_is stage "test" then
    (root <- attr test_dir ;;
     d <- ReconstructionDataset_new root ;;
     set_test_dataset d ;;;
     d <- getattr "val_dataset" val_dataset ;;
     print (loaded (torch.len d) "test"))%py
  else
    raise NotImplemented_call.

Definition train_dataloader : M World (torch.DataLoader Sample) :=
  (d <- getattr "train_dataset" train_dataset ;;
   batch_size <- attr train_batch_size ;;
   workers <- attr num_workers ;;
   d' <- getattr "train_dataset" train_dataset ;;
   n <- attr num_samples ;;
   s <- lift (torch.RandomSampler_init d' n) ;;
   lift (torch.DataLoader_init d batch_size workers (Some s)))%py.

Definition test_dataloader : M World (torch.DataLoader Sample) :=
  (d <- getattr "test_dataset" test_dataset ;;
   batch_size <- attr eval_batch_size ;;
   workers <- attr num_workers ;;
   lift (torch.DataLoader_init d batch_size workers None))%py.

Definition val_dataloader : M World (torch.DataLoader Sample) :=
  (d <- getattr "val_dataset" val_dataset ;;
   batch_size <- attr eval_batch_size ;;
   workers <- attr num_workers ;;
   lift (torch.DataLoader_init d batch_size workers None))%py.

(** The calls a training loop makes on the module, and the world left
    by a history of them (a call that raises keeps what it did before
    raising). *)
Inductive Call : Type :=
| call_prepare_data
| call_setup (stage : option string)
| call_train_dataloader
| call_val_dataloader
| call_test_dataloader.

Definition invoke (c : Call) (w : World) : World :=
  match c with
  | call_prepare_data => snd (prepare_data w)
  | call_setup stage => snd (setup stage w)
  | call_train_dataloader => snd (train_dataloader w)
  | call_val_dataloader => snd (val_dataloader w)
  | call_test_dataloader => snd (test_dataloader w)
  end.

Definition run (history : list Call) (w : World) : World :=
  fold_left (fun w c => invoke c w) history w.

End WithCollaborators.

Arguments mkDataModule {Sample}.
Arguments train_dir {Sample} d.
Arguments val_dir {Sample} d.
Arguments test_dir {Sample} d.
Arguments train_batch_size {Sample} d.
Arguments eval_batch_size {Sample} d.
Arguments num_workers {Sample} d.
Arguments num_samples {Sample} d.
Arguments train_dataset {Sample} d.
Arguments val_dataset {Sample} d.
Arguments test_dataset {Sample} d.
Arguments with_train_dataset {Sample} d s.
Arguments with_val_dataset {Sample} d s.
Arguments with_test_dataset {Sample} d s.
Arguments mkWorld {Sample}.
Arguments self {Sample} w.
Arguments stdout {Sample} w.
Arguments constructed {Sample} w.
Arguments __init__ {Sample} cls a.
Arguments new {Sample} cls a.
Arguments prepare_data {Sample} exists_.
Arguments setup {Sample} ReconstructionDataset stage.
Arguments train_dataloader {Sample}.
Arguments val_dataloader {Sample}.
Arguments test_dataloader {Sample}.
Arguments invoke {Sample} ReconstructionDataset exists_ c w.
Arguments run {Sample} ReconstructionDataset exists_ history w.

End BaseReconstructionDataModule.

Module Coco2014Reconstruction.

Definition _get_split_dirs (data_dir : string)
  : result (string * string * string) :=
  let train_dir := posixpath.join data_dir ["train2014"] in
  let val_dir := posixpath.join data_dir ["val2014"] in
  let test_dir := posixpath.join data_dir ["test2014"] in
  Ok (train_dir, val_dir, test_dir).

Definition cls : Class :=
  mkClass "Coco2014Reconstruction" [] _get_split_dirs.

End Coco2014Reconstruction.

End reconstruction.

Import reconstruction.
Module Base := reconstruction.BaseReconstructionDataModule.
Module Coco := reconstruction.Coco2014Reconstruction.

(** ** Vocabulary of the properties *)

(** [p] lies strictly below directory [root]: [root], one separator
    (unless [root] already ends with it), and a relative name. *)
Definition nested_under (root p : string) : Prop :=
  exists name,
    name <> EmptyString /\ startswith name posixpath.sep = false /\
    p = root ++ (if endswith root posixpath.sep then EmptyString else posixpath.sep)
             ++ name.

(** What [os.path.join] makes of a relative subdirectory name. *)
Definition subdir (root name : string) : string :=
  root ++ (if endswith root posixpath.sep then EmptyString else posixpath.sep)
       ++ name.

(** A split path that fails its assertion: empty, or not on disk. *)
Definition absent (exists_ : string -> bool) (p : string) : Prop :=
  p = EmptyString \/ exists_ p = false.

Definition ceil_div (n b : nat) : nat := (n + b - 1) / b.

(** Batches cut with size [b]: every batch is full, except that the
    last one may hold fewer (but not zero) elements. *)
Fixpoint batches_of {A} (b : nat) (bs : list (list A)) : Prop :=
  match bs with
  | [] => True
  | x :: rest =>
      match rest with
      | [] => (0 < List.length x <= b)%nat
      | _ :: _ => List.length x = b
      end /\ batches_of b rest
  end.

(** Each fetched batch holds the dataset's items at the batch's
    indices, in order. *)
Definition fetched {A} (d : list A) (idx : list (list nat))
    (samples : list (list A)) : Prop :=
  Forall2 (fun ib sb => map (nth_error d) ib = map Some sb) idx samples.

(** The five options as [add_argparse_args] declares them. *)
Definition declared_options : list argparse.Action :=
  [ argparse.mkAction ["--data_dir"] "dataset location"
      argparse.type_str true None None;
    argparse.mkAction ["--train_batch_size"] "batch size for training"
      argparse.type_int false (Some (argparse.VInt 16)) None;
    argparse.mkAction ["--eval_batch_size"]
      "batch size for validation and testing"
      argparse.type_int false (Some (argparse.VInt 64)) None;
    argparse.mkAction ["--num_workers"] "dataloader workers per DDP process"
      argparse.type_int false (Some (argparse.VInt 4)) None;
    argparse.mkAction ["--num_samples"]
      "number of images to sample in each training epoch"
      argparse.type_int false (Some (argparse.VInt 50000)) None ].

(** One training epoch as the sampling contract describes it: the
    provider is granted, and a full pass from any state [g] of the
    default generator goes as follows.  The loader takes its base seed,
    the sampler takes its seed and yields [draws]: [n] successive
    numbers of the generator made from that seed, each reduced to a
    valid index.  The index batches are [draws] cut in that order into
    batches of [b] (all of them full when [b] divides [n]), and the
    sample batches hold the samples at those indices. *)
Definition train_epoch_yields {Sample Gen : Type} (raw : Gen -> nat * Gen)
    (manual_seed : nat -> Gen)
    (w : Base.World Sample) (d : torch.Dataset Sample) (n b : nat) : Prop :=
  exists dl,
    Base.train_dataloader w = (Ok dl, w) /\
    forall g,
      let g1 := snd (raw g) in
      let draws :=
        fst (torch.draw raw (torch.len d) n (manual_seed (fst (raw g1)))) in
      exists idx samples,
        torch.Sampler_iter raw manual_seed
          (torch.sampler (torch.batch_sampler dl)) g1
        = (Ok draws, snd (raw g1)) /\
        torch.DataLoader_index_batches raw manual_seed dl g
        = (Ok idx, snd (raw g1)) /\
        torch.DataLoader_iter raw manual_seed dl g
        = (Ok samples, snd (raw g1)) /\
        List.concat idx = draws /\
        List.length draws = n /\
        Forall (fun i => (i < torch.len d)%nat) draws /\
        batches_of b idx /\
        List.length idx = ceil_div n b /\
        ((n mod b = 0)%nat ->
         Forall (fun x => List.length x = b) idx /\
         List.length idx = (n / b)%nat) /\
        fetched d idx samples.

(** The two evaluation splits, with the adapter and the request of
    each. *)
Inductive EvalSplit : Type := val_split | test_split.

Definition eval_dataset {Sample : Type} (split : EvalSplit)
    (dm : Base.DataModule Sample) : option (torch.Dataset Sample) :=
  match split with
  | val_split => Base.val_dataset dm
  | test_split => Base.test_dataset dm
  end.

Definition eval_dataloader {Sample : Type} (split : EvalSplit)
  : M (Base.World Sample) (torch.DataLoader Sample) :=
  match split with
  | val_split => Base.val_dataloader
  | test_split => Base.test_dataloader
  end.

(** One evaluation epoch as the contract describes it: the provider is
    granted, and a full pass from any generator state yields the same
    batches: the indices [0 .. len d - 1] in order, cut into
    [ceil (len d / b)] batches of [b], and the samples at those
    indices; a second pass right after the first yields them again. *)
Definition eval_epoch_yields {Sample Gen : Type} (raw : Gen -> nat * Gen)
    (manual_seed : nat -> Gen) (split : EvalSplit)
    (w : Base.World Sample) (d : torch.Dataset Sample) (b : nat) : Prop :=
  exists dl,
    eval_dataloader split w = (Ok dl, w) /\
    exists idx samples,
      (forall g, torch.DataLoader_index_batches raw manual_seed dl g
                 = (Ok idx, snd (raw g))) /\
      (forall g, torch.DataLoader_iter raw manual_seed dl g
                 = (Ok samples, snd (raw g))) /\
      List.concat idx = seq 0 (torch.len d) /\
      NoDup (List.concat idx) /\
      List.concat samples = d /\
      fetched d idx samples /\
      batches_of b idx /\ batches_of b samples /\
      List.length idx = ceil_div (torch.len d) b /\
      List.length samples = ceil_div (torch.len d) b /\
      (forall g,
          let first := torch.DataLoader_iter raw manual_seed dl g in
          let second := torch.DataLoader_iter raw manual_seed dl (snd first) in
          fst first = Ok samples /\ fst second = Ok samples).

(** ** A concrete deployment: a COCO root with 3, 2 and 5 files *)

Module Scenario.

Definition Sample : Type := string.

Definition ReconstructionDataset (root_dir : string) : torch.Dataset Sample :=
  if root_dir =? "/coco/train2014" then ["t0.jpg"; "t1.jpg"; "t2.jpg"]
  else if root_dir =? "/coco/val2014" then ["v0.jpg"; "v1.jpg"]
  else if root_dir =? "/coco/test2014"
       then ["s0.jpg"; "s1.jpg"; "s2.jpg"; "s3.jpg"; "s4.jpg"]
  else [].

Definition exists_ (p : string) : bool :=
  existsb (String.eqb p)
    ["/coco"; "/coco/train2014"; "/coco/val2014"; "/coco/test2014"].

(** The same root with the test split missing. *)
Definition exists_no_test (p : string) : bool :=
  existsb (String.eqb p) ["/coco"; "/coco/train2014"; "/coco/val2014"].

(** A small congruential generator. *)
Definition raw (g : nat) : nat * nat := (g, (5 * g + 3) mod 16).

Definition manual_seed (seed : nat) : nat := (7 * seed + 1) mod 16.

(** An eval batch size just beyond [sys.maxsize]. *)
Definition huge_eval_args : args.t := args.mk "/coco" 2 (2 ^ 63) 4 10.

Definition val_files : torch.Dataset string := ["v0.jpg"; "v1.jpg"].

Definition coco_args : args.t := args.mk "/coco" 2 64 4 10.

(** No samples per epoch requested. *)
Definition zero_samples_args : args.t := args.mk "/coco" 2 64 4 0.

(** Evaluation in batches of two. *)
Definition small_eval_args : args.t := args.mk "/coco" 2 2 4 10.

Definition train_files : torch.Dataset Sample := ["t0.jpg"; "t1.jpg"; "t2.jpg"].

Definition test_files : torch.Dataset Sample :=
  ["s0.jpg"; "s1.jpg"; "s2.jpg"; "s3.jpg"; "s4.jpg"].

Definition instance (a : args.t) : Base.World Sample :=
  Base.mkWorld
    (Base.mkDataModule
       "/coco/train2014" "/coco/val2014" "/coco/test2014"
       (args.train_batch_size a) (args.eval_batch_size a)
       (args.num_workers a) (args.num_samples a) None None None)
    [] [].

Definition setup := Base.setup ReconstructionDataset.
Definition run := Base.run ReconstructionDataset exists_.

End Scenario.

(** ** Vocabulary of the history properties *)

(** Some call of the history is [setup(s)]. *)
Definition entered (s : string) (history : list Base.Call) : bool :=
  existsb (fun c => match c with
                    | Base.call_setup stage => Base.stage_is stage s
                    | _ => false
                    end) history.

(** The instance [dm] once the phases of [history] have been entered:
    the options and the split paths as they were, and each adapter
    rebuilt from its split path if its phase was entered. *)
Definition adapters_after {Sample : Type} (R : string -> torch.Dataset Sample)
    (history : list Base.Call) (dm : Base.DataModule Sample)
  : Base.DataModule Sample :=
  Base.mkDataModule
    (Base.train_dir dm) (Base.val_dir dm) (Base.test_dir dm)
    (Base.train_batch_size dm) (Base.eval_batch_size dm)
    (Base.num_workers dm) (Base.num_samples dm)
    (if entered "fit" history then Some (R (Base.train_dir dm))
     else Base.train_dataset dm)
    (if entered "fit" history then Some (R (Base.val_dir dm))
     else Base.val_dataset dm)
    (if entered "test" history then Some (R (Base.test_dir dm))
     else Base.test_dataset dm).

(** The split paths whose adapters one call constructs, in order. *)
Definition adapters_of_call {Sample : Type} (dm : Base.DataModule Sample)
    (c : Base.Call) : list string :=
  match c with
  | Base.call_setup stage =>
      if Base.stage_is stage "fit" then [Base.train_dir dm; Base.val_dir dm]
      else if Base.stage_is stage "test" then [Base.test_dir dm]
      else []
  | _ => []
  end.

(** A deployment whose split directories hold no file. *)
Module EmptySplits.

Definition ReconstructionDataset (root_dir : string)
  : torch.Dataset Scenario.Sample := [].

Definition run := Base.run ReconstructionDataset Scenario.exists_.

End EmptySplits.

(** * Properties *)

(** ** Strings and paths *)

Lemma truthy_nonempty (s : string) : s <> EmptyString -> truthy s = true.
Proof.
  destruct s as [|c s]; [congruence | reflexivity].
Qed.

Lemma append_cancel_l (s a b : string) : s ++ a = s ++ b -> a = b.
Proof.
  induction s as [|c s IH]; simpl; intros H; [exact H|].
  injection H as H. auto.
Qed.

Lemma append_nonempty_l (s a : string) : s <> EmptyString -> s ++ a <> EmptyString.
Proof.
  destruct s as [|c s]; [congruence | discriminate].
Qed.

(** Joining a non-empty root with a relative name appends the name,
    after a separator when the root does not end with one. *)
Lemma join_relative (root name : string) :
  root <> EmptyString ->
  startswith name posixpath.sep = false ->
  posixpath.join root [name] = subdir root name.
Proof.
  intros Hroot Hrel.
  unfold posixpath.join, posixpath.join_step, subdir; simpl.
  rewrite Hrel, (truthy_nonempty _ Hroot); simpl.
  destruct (endswith root posixpath.sep); reflexivity.
Qed.

Lemma subdir_nested (root name : string) :
  name <> EmptyString ->
  startswith name posixpath.sep = false ->
  nested_under root (subdir root name).
Proof.
  intros Hne Hrel. exists name. repeat split; assumption.
Qed.

Lemma subdir_inj (root a b : string) : subdir root a = subdir root b -> a = b.
Proof.
  unfold subdir. intros H.
  apply append_cancel_l in H. apply append_cancel_l in H. exact H.
Qed.

(** C6. For every non-empty root [R], the Coco2014 split resolver (a
    function of [R] alone, outside the store monad) returns the three
    paths obtained by appending [train2014], [val2014] and [test2014]
    to [R]; they are non-empty, pairwise distinct and each nested
    under [R]. *)
Theorem coco_get_split_dirs_nested (R : string) (HR : R <> EmptyString) :
  exists train_dir val_dir test_dir,
    Coco._get_split_dirs R = Ok (train_dir, val_dir, test_dir) /\
    train_dir = subdir R "train2014" /\
    val_dir = subdir R "val2014" /\
    test_dir = subdir R "test2014" /\
    (train_dir <> EmptyString /\ val_dir <> EmptyString /\
     test_dir <> EmptyString) /\
    (train_dir <> val_dir /\ train_dir <> test_dir /\ val_dir <> test_dir) /\
    (nested_under R train_dir /\ nested_under R val_dir /\
     nested_under R test_dir).
Proof.
  exists (subdir R "train2014"), (subdir R "val2014"), (subdir R "test2014").
  split.
  { unfold Coco._get_split_dirs.
    rewrite !join_relative by (assumption || reflexivity). reflexivity. }
  repeat split;
    try (apply append_nonempty_l; assumption);
    try (intros H; apply subdir_inj in H; discriminate H);
    apply subdir_nested; (discriminate || reflexivity).
Qed.

Lemma coco_get_split_dirs_nested_witness :
  exists train_dir val_dir test_dir,
    Coco._get_split_dirs "/coco" = Ok (train_dir, val_dir, test_dir) /\
    train_dir = subdir "/coco" "train2014" /\
    val_dir = subdir "/coco" "val2014" /\
    test_dir = subdir "/coco" "test2014" /\
    (train_dir <> EmptyString /\ val_dir <> EmptyString /\
     test_dir <> EmptyString) /\
    (train_dir <> val_dir /\ train_dir <> test_dir /\ val_dir <> test_dir) /\
    (nested_under "/coco" train_dir /\ nested_under "/coco" val_dir /\
     nested_under "/coco" test_dir).
Proof.
  apply (coco_get_split_dirs_nested "/coco"). discriminate.
Defined.

(** The paths of the concrete deployment, computed. *)
Example coco_get_split_dirs_example :
  Coco._get_split_dirs "/coco"
  = Ok ("/coco/train2014", "/coco/val2014", "/coco/test2014") /\
  Coco._get_split_dirs "/coco/"
  = Ok ("/coco/train2014", "/coco/val2014", "/coco/test2014") /\
  Coco._get_split_dirs EmptyString = Ok ("train2014", "val2014", "test2014").
Proof. repeat split. Qed.

(** C8. On every input the base split resolver fails, and maps nothing;
    the exception it fails with is the [TypeError] of calling
    [NotImplemented], which is not [NotImplementedError]. *)
Theorem base_get_split_dirs_raises (data_dir : string) :
  Base._get_split_dirs data_dir
  = Raise (TypeError "'NotImplementedType' object is not callable") /\
  Base._get_split_dirs data_dir <> Raise NotImplementedError /\
  (forall dirs, Base._get_split_dirs data_dir <> Ok dirs).
Proof.
  repeat split; intros; discriminate.
Qed.

(** ** The lifecycle controller *)

Lemma truthy_false_iff (s : string) : truthy s = false <-> s = EmptyString.
Proof.
  destruct s as [|c s]; simpl; split; intros H; (reflexivity || discriminate).
Qed.

Lemma stage_is_false (stage : option string) (s : string) :
  stage <> Some s -> Base.stage_is stage s = false.
Proof.
  destruct stage as [x|]; simpl; intros H; [|reflexivity].
  apply String.eqb_neq. congruence.
Qed.

Lemma stage_is_true (stage : option string) (s : string) :
  Base.stage_is stage s = true -> stage = Some s.
Proof.
  destruct stage as [x|]; simpl; intros H; [|discriminate].
  apply String.eqb_eq in H. congruence.
Qed.

Section Lifecycle.

Variable Sample : Type.
Variable ReconstructionDataset : string -> torch.Dataset Sample.
Variable exists_ : string -> bool.

Implicit Types (w : Base.World Sample) (stage : option string).

Lemma absent_iff (p : string) :
  truthy p && exists_ p = false <-> absent exists_ p.
Proof.
  unfold absent. rewrite andb_false_iff, truthy_false_iff. reflexivity.
Qed.

Lemma not_absent_iff (p : string) :
  truthy p && exists_ p = true <-> (p <> EmptyString /\ exists_ p = true).
Proof.
  rewrite andb_true_iff. split; intros [H1 H2]; split; try assumption.
  - intros ->. discriminate.
  - apply truthy_nonempty; assumption.
Qed.

(** C5. [prepare_data] raises [AssertionError] exactly when one of the
    three split paths is empty or missing on disk, succeeds when all
    three are non-empty and exist, and in either case leaves the
    instance, the output and the list of constructed adapters as they
    were. *)
Theorem prepare_data_checks_split_paths w :
  (fst (Base.prepare_data exists_ w) = Raise AssertionError <->
   absent exists_ (Base.train_dir (Base.self w)) \/
   absent exists_ (Base.val_dir (Base.self w)) \/
   absent exists_ (Base.test_dir (Base.self w))) /\
  ((Base.train_dir (Base.self w) <> EmptyString /\
    exists_ (Base.train_dir (Base.self w)) = true) /\
   (Base.val_dir (Base.self w) <> EmptyString /\
    exists_ (Base.val_dir (Base.self w)) = true) /\
   (Base.test_dir (Base.self w) <> EmptyString /\
    exists_ (Base.test_dir (Base.self w)) = true) ->
   fst (Base.prepare_data exists_ w) = Ok tt) /\
  snd (Base.prepare_data exists_ w) = w.
Proof.
  rewrite <- !absent_iff, <- !not_absent_iff.
  unfold Base.prepare_data, bind, Base.attr, Base.assert_, ret, raise.
  destruct (truthy (Base.train_dir (Base.self w))
            && exists_ (Base.train_dir (Base.self w)));
  destruct (truthy (Base.val_dir (Base.self w))
            && exists_ (Base.val_dir (Base.self w)));
  destruct (truthy (Base.test_dir (Base.self w))
            && exists_ (Base.test_dir (Base.self w)));
  simpl; repeat split; try tauto; try discriminate; intuition discriminate.
Qed.

(** C7. For every stage other than ['fit'] and ['test'], [None]
    included, [setup] fails and leaves the world untouched: no adapter
    is constructed or stored.  The exception is the [TypeError] of
    calling [NotImplemented], not [NotImplementedError]. *)
Theorem setup_unknown_stage_raises stage w :
  stage <> Some "fit" -> stage <> Some "test" ->
  Base.setup ReconstructionDataset stage w
  = (Raise (TypeError "'NotImplementedType' object is not callable"), w) /\
  fst (Base.setup ReconstructionDataset stage w) <> Raise NotImplementedError.
Proof.
  intros Hfit Htest. unfold Base.setup.
  rewrite (stage_is_false _ _ Hfit), (stage_is_false _ _ Htest).
  split; [reflexivity | discriminate].
Qed.

(** *** What each call does to the world *)

Ltac py_unfold :=
  unfold Base.setup, Base.prepare_data, Base.train_dataloader,
    Base.val_dataloader, Base.test_dataloader, Base.set_train_dataset,
    Base.set_val_dataset, Base.set_test_dataset, Base.update_self,
    Base.ReconstructionDataset_new, Base.getattr, Base.attr, Base.print,
    Base.assert_, bind, ret, raise, modify, lift.

Lemma setup_fit w :
  Base.setup ReconstructionDataset (Some "fit") w =
  (Ok tt,
   Base.mkWorld
     (Base.with_val_dataset
        (ReconstructionDataset (Base.val_dir (Base.self w)))
        (Base.with_train_dataset
           (ReconstructionDataset (Base.train_dir (Base.self w)))
           (Base.self w)))
     ((Base.stdout w
       ++ [Base.loaded
             (torch.len (ReconstructionDataset (Base.train_dir (Base.self w))))
             "train"])
       ++ [Base.loaded
             (torch.len (ReconstructionDataset (Base.val_dir (Base.self w))))
             "val"])%list
     ((Base.constructed w ++ [Base.train_dir (Base.self w)])
       ++ [Base.val_dir (Base.self w)])%list).
Proof. destruct w as [[] out built]. reflexivity. Qed.

(** With a validation adapter in place the test transition succeeds,
    and the line it prints counts the validation adapter. *)
Lemma setup_test_after_fit w v :
  Base.val_dataset (Base.self w) = Some v ->
  Base.setup ReconstructionDataset (Some "test") w =
  (Ok tt,
   Base.mkWorld
     (Base.with_test_dataset
        (ReconstructionDataset (Base.test_dir (Base.self w))) (Base.self w))
     (Base.stdout w ++ [Base.loaded (torch.len v) "test"])%list
     (Base.constructed w ++ [Base.test_dir (Base.self w)])%list).
Proof.
  destruct w as [[] out built]. simpl. intros ->. reflexivity.
Qed.

Lemma setup_test_before_fit w :
  Base.val_dataset (Base.self w) = None ->
  Base.setup ReconstructionDataset (Some "test") w =
  (Raise (AttributeError "val_dataset"),
   Base.mkWorld
     (Base.with_test_dataset
        (ReconstructionDataset (Base.test_dir (Base.self w))) (Base.self w))
     (Base.stdout w)
     (Base.constructed w ++ [Base.test_dir (Base.self w)])%list).
Proof.
  destruct w as [[] out built]. simpl. intros ->. reflexivity.
Qed.

Lemma setup_other stage w :
  Base.stage_is stage "fit" = false ->
  Base.stage_is stage "test" = false ->
  snd (Base.setup ReconstructionDataset stage w) = w.
Proof.
  intros Hfit Htest. unfold Base.setup. rewrite Hfit, Htest. reflexivity.
Qed.

Lemma prepare_data_world w : snd (Base.prepare_data exists_ w) = w.
Proof.
  py_unfold.
  destruct (truthy (Base.train_dir (Base.self w))
            && exists_ (Base.train_dir (Base.self w)));
  destruct (truthy (Base.val_dir (Base.self w))
            && exists_ (Base.val_dir (Base.self w)));
  destruct (truthy (Base.test_dir (Base.self w))
            && exists_ (Base.test_dir (Base.self w))); reflexivity.
Qed.

Lemma train_dataloader_world w : snd (Base.train_dataloader w) = w.
Proof.
  destruct w as [[tr va te tb eb nw ns [d|] dv dt] out built];
    py_unfold; simpl; [|reflexivity].
  destruct (torch.RandomSampler_init d ns); reflexivity.
Qed.

Lemma val_dataloader_world w : snd (Base.val_dataloader w) = w.
Proof.
  py_unfold. destruct (Base.val_dataset (Base.self w)) as [d|]; reflexivity.
Qed.

Lemma test_dataloader_world w : snd (Base.test_dataloader w) = w.
Proof.
  py_unfold. destruct (Base.test_dataset (Base.self w)) as [d|]; reflexivity.
Qed.

(** *** Which adapters a history of calls leaves behind *)

Implicit Types (c : Base.Call) (history : list Base.Call).

Lemma run_cons c history w :
  Base.run ReconstructionDataset exists_ (c :: history) w
  = Base.run ReconstructionDataset exists_ history
      (Base.invoke ReconstructionDataset exists_ c w).
Proof. reflexivity. Qed.

(** Only [setup('fit')] touches the validation adapter. *)
Lemma invoke_val_dataset c w :
  c <> Base.call_setup (Some "fit") ->
  Base.val_dataset (Base.self (Base.invoke ReconstructionDataset exists_ c w))
  = Base.val_dataset (Base.self w).
Proof.
  intros Hc. destruct c as [|stage| | |]; simpl.
  - rewrite prepare_data_world. reflexivity.
  - destruct (Base.stage_is stage "fit") eqn:Hfit.
    { apply stage_is_true in Hfit. congruence. }
    destruct (Base.stage_is stage "test") eqn:Htest.
    + apply stage_is_true in Htest. subst stage.
      destruct (Base.val_dataset (Base.self w)) as [v|] eqn:Hv.
      * rewrite (setup_test_after_fit w v Hv). simpl.
        destruct w as [[] out built]. exact Hv.
      * rewrite (setup_test_before_fit w Hv). simpl.
        destruct w as [[] out built]. exact Hv.
    + rewrite setup_other by assumption. reflexivity.
  - rewrite train_dataloader_world. reflexivity.
  - rewrite val_dataloader_world. reflexivity.
  - rewrite test_dataloader_world. reflexivity.
Qed.



Lemma run_val_dataset history : forall w,
  ~ In (Base.call_setup (Some "fit")) history ->
  Base.val_dataset (Base.self (Base.run ReconstructionDataset exists_ history w))
  = Base.val_dataset (Base.self w).
Proof.
  induction history as [|c history IH]; intros w Hnot; [reflexivity|].
  rewrite run_cons, IH by (intros H; apply Hnot; right; exact H).
  apply invoke_val_dataset. intros ->. apply Hnot. left. reflexivity.
Qed.




(** A freshly constructed module holds no adapter. *)
Lemma new_no_adapters cls a w :
  Base.new cls a = Ok w ->
  Base.train_dataset (Base.self w) = None /\
  Base.val_dataset (Base.self w) = None /\
  Base.test_dataset (Base.self w) = None /\
  Base.stdout w = [] /\ Base.constructed w = [].
Proof.
  unfold Base.new, Base.__init__.
  destruct (__abstractmethods__ cls); [|discriminate].
  destruct (_get_split_dirs cls (args.data_dir a)) as [[[tr va] te]|e];
    [|discriminate].
  intros H. injection H as <-. repeat split.
Qed.

(** *** Requesting providers *)

(** With the training adapter in place, the request goes through to
    the sampler and the loader, which decide on the numeric options. *)
Lemma train_dataloader_with_adapter w d :
  Base.train_dataset (Base.self w) = Some d ->
  Base.train_dataloader w =
  (match torch.RandomSampler_init d (Base.num_samples (Base.self w)) with
   | Ok s =>
       torch.DataLoader_init d (Base.train_batch_size (Base.self w))
         (Base.num_workers (Base.self w)) (Some s)
   | Raise e => Raise e
   end, w).
Proof.
  destruct w as [[tr va te tb eb nw ns dt dv ds] out built]; simpl.
  intros ->. py_unfold; simpl.
  destruct (torch.RandomSampler_init d ns); reflexivity.
Qed.

Lemma train_dataloader_granted w d :
  Base.train_dataset (Base.self w) = Some d ->
  (0 < Base.num_samples (Base.self w))%Z ->
  (0 < Base.train_batch_size (Base.self w))%Z ->
  (0 <= Base.num_workers (Base.self w))%Z ->
  Base.train_dataloader w =
  (Ok (torch.mkDataLoader Sample d (Base.num_workers (Base.self w))
         (torch.mkBatchSampler Sample
            (torch.RandomSampler d (Base.num_samples (Base.self w)))
            (Base.train_batch_size (Base.self w)) false)), w).
Proof.
  intros Hd Hn Hb Hw. rewrite (train_dataloader_with_adapter w d Hd).
  unfold torch.RandomSampler_init, torch.DataLoader_init,
    torch.BatchSampler_init.
  destruct (Z.leb_spec (Base.num_samples (Base.self w)) 0); [lia|].
  destruct (Z.ltb_spec (Base.num_workers (Base.self w)) 0); [lia|].
  destruct (Z.leb_spec (Base.train_batch_size (Base.self w)) 0); [lia|].
  reflexivity.
Qed.


Lemma test_dataloader_without_adapter w :
  Base.test_dataset (Base.self w) = None ->
  Base.test_dataloader w = (Raise (AttributeError "test_dataset"), w).
Proof.
  destruct w as [[tr va te tb eb nw ns dt dv ds] out built]; simpl.
  intros ->. reflexivity.
Qed.


(** C10. On a module whose history contains no [setup('fit')],
    [setup('test')] raises [AttributeError] for [val_dataset], and the
    world it leaves has the test adapter constructed and stored, with
    nothing printed. *)
Theorem setup_test_without_fit_raises cls a w0 history :
  Base.new cls a = Ok w0 ->
  ~ In (Base.call_setup (Some "fit")) history ->
  let w := Base.run ReconstructionDataset exists_ history w0 in
  let w' := snd (Base.setup ReconstructionDataset (Some "test") w) in
  fst (Base.setup ReconstructionDataset (Some "test") w)
  = Raise (AttributeError "val_dataset") /\
  Base.test_dataset (Base.self w')
  = Some (ReconstructionDataset (Base.test_dir (Base.self w))) /\
  Base.constructed w' = (Base.constructed w ++ [Base.test_dir (Base.self w)])%list /\
  Base.stdout w' = Base.stdout w /\
  Base.self w'
  = Base.with_test_dataset
      (ReconstructionDataset (Base.test_dir (Base.self w))) (Base.self w).
Proof.
  intros Hnew Hfit w w'.
  destruct (new_no_adapters _ _ _ Hnew) as (_ & Hno_val & _).
  assert (Hv : Base.val_dataset (Base.self w) = None).
  { unfold w. rewrite run_val_dataset; assumption. }
  unfold w'. rewrite (setup_test_before_fit w Hv). repeat split.
Qed.

End Lifecycle.

(** *** The concrete deployment *)

Example scenario_new :
  Base.new Coco.cls Scenario.coco_args
  = Ok (Scenario.instance Scenario.coco_args).
Proof. reflexivity. Qed.

(** With all three split directories on disk the check passes; with
    [test2014] missing it raises before anything is constructed. *)
Example prepare_data_scenario :
  Base.prepare_data Scenario.exists_ (Scenario.instance Scenario.coco_args)
  = (Ok tt, Scenario.instance Scenario.coco_args) /\
  Base.prepare_data Scenario.exists_no_test
    (Scenario.instance Scenario.coco_args)
  = (Raise AssertionError, Scenario.instance Scenario.coco_args).
Proof. split; reflexivity. Qed.

Lemma setup_unknown_stage_raises_witness :
  Scenario.setup None (Scenario.instance Scenario.coco_args)
  = (Raise (TypeError "'NotImplementedType' object is not callable"),
     Scenario.instance Scenario.coco_args) /\
  fst (Scenario.setup None (Scenario.instance Scenario.coco_args))
  <> Raise NotImplementedError.
Proof.
  apply (setup_unknown_stage_raises Scenario.Sample
           Scenario.ReconstructionDataset None); discriminate.
Defined.


Lemma setup_test_without_fit_raises_witness :
  let w := Scenario.run
             [Base.call_prepare_data; Base.call_setup None;
              Base.call_test_dataloader]
             (Scenario.instance Scenario.coco_args) in
  let w' := snd (Scenario.setup (Some "test") w) in
  fst (Scenario.setup (Some "test") w) = Raise (AttributeError "val_dataset") /\
  Base.test_dataset (Base.self w')
  = Some (Scenario.ReconstructionDataset (Base.test_dir (Base.self w))) /\
  Base.constructed w' = (Base.constructed w ++ [Base.test_dir (Base.self w)])%list /\
  Base.stdout w' = Base.stdout w /\
  Base.self w'
  = Base.with_test_dataset
      (Scenario.ReconstructionDataset (Base.test_dir (Base.self w)))
      (Base.self w).
Proof.
  apply (setup_test_without_fit_raises Scenario.Sample
           Scenario.ReconstructionDataset Scenario.exists_
           Coco.cls Scenario.coco_args).
  - reflexivity.
  - simpl. intros [H | [H | [H | []]]]; discriminate H.
Defined.

(** C1. In the concrete deployment (2 validation files, 5 test files)
    [setup('test')] after [setup('fit')] constructs exactly one
    adapter, the one of the test split, which holds 5 samples; the line
    it prints reports 2, the size of the validation adapter. *)
Theorem setup_test_reports_val_count :
  let w := Scenario.run [Base.call_setup (Some "fit")]
             (Scenario.instance Scenario.coco_args) in
  exists w' d,
    Scenario.setup (Some "test") w = (Ok tt, w') /\
    Base.constructed w' = (Base.constructed w ++ ["/coco/test2014"])%list /\
    Base.test_dataset (Base.self w') = Some d /\
    torch.len d = 5%nat /\
    Base.val_dataset (Base.self w') = Some ["v0.jpg"; "v1.jpg"] /\
    Base.stdout w' = (Base.stdout w ++ ["Loaded 2 test samples"])%list /\
    Base.stdout w' <> (Base.stdout w ++ ["Loaded 5 test samples"])%list.
Proof.
  eexists. eexists. repeat split; try reflexivity. discriminate.
Qed.

(** ** Batching *)

Lemma ceil_div_zero (b : nat) : (0 < b)%nat -> ceil_div 0 b = 0%nat.
Proof.
  intros Hb. unfold ceil_div. apply Nat.div_small. lia.
Qed.

Lemma ceil_div_add (n b : nat) :
  (0 < b)%nat -> ceil_div (b + n) b = S (ceil_div n b).
Proof.
  intros Hb. unfold ceil_div.
  replace (b + n + b - 1)%nat with ((n + b - 1) + 1 * b)%nat by lia.
  rewrite Nat.div_add by lia. lia.
Qed.

Lemma ceil_div_small (n b : nat) :
  (0 < n <= b)%nat -> ceil_div n b = 1%nat.
Proof.
  intros Hn. unfold ceil_div.
  replace (n + b - 1)%nat with ((n - 1) + 1 * b)%nat by lia.
  rewrite Nat.div_add by lia. rewrite Nat.div_small; lia.
Qed.

Lemma ceil_div_exact (n b : nat) :
  (0 < b)%nat -> (n mod b = 0)%nat -> ceil_div n b = (n / b)%nat.
Proof.
  intros Hb Hmod. unfold ceil_div.
  pose proof (Nat.div_mod_eq n b) as Hn. rewrite Hmod in Hn.
  replace (n + b - 1)%nat with ((b - 1) + (n / b) * b)%nat by lia.
  rewrite Nat.div_add by lia. rewrite (Nat.div_small (b - 1) b); lia.
Qed.

Section Batching.

Variable bs : nat.
Hypothesis bs_pos : (0 < bs)%nat.

Lemma batch_loop_nil (rounds : nat) : torch.batch_loop rounds bs [] = [].
Proof.
  destruct rounds as [|r]; [reflexivity|].
  cbn [torch.batch_loop]. unfold torch.islice. rewrite firstn_nil. reflexivity.
Qed.

(** One round of the loop on an iterator that is not exhausted. *)
Lemma batch_loop_step (rounds : nat) (it : list nat) :
  it <> [] ->
  torch.batch_loop (S rounds) bs it
  = firstn bs it :: torch.batch_loop rounds bs (skipn bs it).
Proof.
  intros Hit. cbn [torch.batch_loop]. unfold torch.islice.
  destruct it as [|x it]; [congruence|].
  generalize bs_pos. generalize bs.
  intros [|k] Hpos; [lia | reflexivity].
Qed.

Lemma skipn_shorter (it : list nat) :
  it <> [] -> (List.length (skipn bs it) < List.length it)%nat.
Proof.
  intros Hit. rewrite length_skipn.
  destruct it; [congruence | cbn [List.length]; lia].
Qed.

(** With one round more than there are items the loop cuts the whole
    sequence, in order. *)
Lemma batch_loop_concat (rounds : nat) : forall it,
  (List.length it < rounds)%nat ->
  List.concat (torch.batch_loop rounds bs it) = it.
Proof.
  induction rounds as [|r IH]; intros it Hlen; [lia|].
  destruct it as [|x it]; [rewrite batch_loop_nil; reflexivity|].
  rewrite batch_loop_step by discriminate. cbn [List.concat].
  rewrite IH.
  - apply firstn_skipn.
  - pose proof (skipn_shorter (x :: it) ltac:(discriminate)). lia.
Qed.

Lemma batch_loop_batches_of (rounds : nat) : forall it,
  (List.length it < rounds)%nat ->
  batches_of bs (torch.batch_loop rounds bs it).
Proof.
  induction rounds as [|r IH]; intros it Hlen; [lia|].
  destruct it as [|x it]; [rewrite batch_loop_nil; exact I|].
  rewrite batch_loop_step by discriminate.
  pose proof (skipn_shorter (x :: it) ltac:(discriminate)) as Hshort.
  cbn [batches_of]. split; [|apply IH; lia].
  destruct (skipn bs (x :: it)) as [|y rest] eqn:Hskip.
  - rewrite batch_loop_nil.
    assert (Hle : (List.length (x :: it) <= bs)%nat).
    { pose proof (length_skipn bs (x :: it)) as H.
      rewrite Hskip in H. cbn [List.length] in *. lia. }
    rewrite firstn_all2 by exact Hle. cbn [List.length] in *. lia.
  - destruct r as [|r']; [cbn [List.length] in *; lia|].
    rewrite batch_loop_step by discriminate.
    apply firstn_length_le.
    pose proof (length_skipn bs (x :: it)) as H.
    rewrite Hskip in H. cbn [List.length] in *. lia.
Qed.

Lemma batch_loop_length (rounds : nat) : forall it,
  (List.length it < rounds)%nat ->
  List.length (torch.batch_loop rounds bs it) = ceil_div (List.length it) bs.
Proof.
  induction rounds as [|r IH]; intros it Hlen; [lia|].
  destruct it as [|x it].
  { rewrite batch_loop_nil. symmetry. apply ceil_div_zero, bs_pos. }
  rewrite batch_loop_step by discriminate.
  pose proof (skipn_shorter (x :: it) ltac:(discriminate)) as Hshort.
  cbn [List.length]. rewrite IH by lia. rewrite length_skipn.
  destruct (Nat.le_gt_cases (List.length (x :: it)) bs) as [Hle|Hgt].
  - replace (List.length (x :: it) - bs)%nat with 0%nat by lia.
    rewrite ceil_div_zero by exact bs_pos.
    symmetry. apply ceil_div_small. cbn [List.length] in *. lia.
  - rewrite <- ceil_div_add by exact bs_pos. f_equal. cbn [List.length] in *. lia.
Qed.

(** When the batch size divides the number of elements, the last batch
    is full as well. *)
Lemma batches_of_exact {A} (batches : list (list A)) :
  batches_of bs batches ->
  (List.length (List.concat batches) mod bs = 0)%nat ->
  Forall (fun x => List.length x = bs) batches.
Proof.
  induction batches as [|x rest IH]; intros Hb Hmod; [constructor|].
  simpl in Hb, Hmod. destruct Hb as [Hx Hrest]. rewrite length_app in Hmod.
  destruct rest as [|y rest].
  - simpl in Hmod. rewrite Nat.add_0_r in Hmod. constructor; [|constructor].
    destruct (Nat.eq_dec (List.length x) bs) as [|Hne]; [assumption|].
    rewrite Nat.mod_small in Hmod; lia.
  - constructor; [exact Hx|]. apply IH; [exact Hrest|].
    rewrite Hx in Hmod.
    replace (bs + List.length (List.concat (y :: rest)))%nat
      with (List.length (List.concat (y :: rest)) + 1 * bs)%nat in Hmod by lia.
    rewrite Nat.Div0.mod_add in Hmod. exact Hmod.
Qed.

Lemma batches_of_same_lengths {A B} (xs : list (list A)) (ys : list (list B)) :
  Forall2 (fun x y => List.length x = List.length y) xs ys ->
  batches_of bs xs -> batches_of bs ys.
Proof.
  induction 1 as [|x y xs ys Hxy Hrest IH]; intros Hb; [exact I|].
  simpl in *. destruct Hb as [Hx Hb]. split; [|apply IH, Hb].
  destruct Hrest; rewrite <- Hxy; exact Hx.
Qed.

End Batching.

(** ** Fetching *)

Section Fetching.

Variable Sample : Type.
Implicit Types (d : torch.Dataset Sample).

Lemma fetch_in_range d (batch : list nat) :
  Forall (fun i => (i < torch.len d)%nat) batch ->
  exists xs, torch.fetch d batch = Ok xs /\
             map (nth_error d) batch = map Some xs.
Proof.
  induction 1 as [|i rest Hi _ IH]; simpl; [exists []; split; reflexivity|].
  destruct IH as (xs & Hxs & Hmap). unfold torch.getitem.
  destruct (nth_error d i) as [x|] eqn:Hx.
  - rewrite Hxs. exists (x :: xs). simpl. rewrite Hmap. split; reflexivity.
  - apply nth_error_None in Hx. unfold torch.len in Hi. lia.
Qed.

Lemma fetch_all_in_range d (batches : list (list nat)) :
  Forall (fun i => (i < torch.len d)%nat) (List.concat batches) ->
  exists samples, torch.fetch_all d batches = Ok samples /\
                  fetched d batches samples.
Proof.
  induction batches as [|b rest IH]; simpl; intros Hall.
  - exists []. split; [reflexivity | constructor].
  - apply Forall_app in Hall. destruct Hall as [Hb Hrest].
    destruct (fetch_in_range d b Hb) as (xs & Hxs & Hmap).
    destruct (IH Hrest) as (samples & Hs & Hf).
    rewrite Hxs, Hs. exists (xs :: samples).
    split; [reflexivity | constructor; assumption].
Qed.

Lemma fetched_lengths d idx samples :
  fetched d idx samples ->
  Forall2 (fun x y => List.length x = List.length y) idx samples.
Proof.
  induction 1 as [|ib sb idx samples Hmap _ IH]; constructor; [|exact IH].
  rewrite <- (length_map (nth_error d) ib), Hmap, length_map. reflexivity.
Qed.

Lemma fetched_concat d idx samples :
  fetched d idx samples ->
  map (nth_error d) (List.concat idx) = map Some (List.concat samples).
Proof.
  induction 1 as [|ib sb idx samples Hmap _ IH]; simpl; [reflexivity|].
  rewrite !map_app, Hmap, IH. reflexivity.
Qed.

Lemma nth_error_seq_all (pre d : list Sample) :
  map (nth_error (pre ++ d)) (seq (List.length pre) (List.length d))
  = map Some d.
Proof.
  revert pre. induction d as [|x d IH]; intros pre; simpl; [reflexivity|].
  rewrite nth_error_app2, Nat.sub_diag by lia. simpl. f_equal.
  specialize (IH (pre ++ [x])%list).
  rewrite <- app_assoc, length_app in IH. simpl in IH.
  rewrite Nat.add_1_r in IH. exact IH.
Qed.

(** Fetching the indices [0 .. len d - 1] in order returns the dataset
    itself. *)
Lemma fetched_sequential d idx samples :
  fetched d idx samples ->
  List.concat idx = seq 0 (torch.len d) ->
  List.concat samples = d.
Proof.
  intros Hf Hidx. apply fetched_concat in Hf. rewrite Hidx in Hf.
  pose proof (nth_error_seq_all [] d) as Hall. simpl in Hall.
  unfold torch.len in Hf. rewrite Hall in Hf.
  clear - Hf. revert Hf. generalize (List.concat samples) as ys.
  induction d as [|x d IH]; intros [|y ys] H; simpl in H;
    try discriminate; [reflexivity|].
  injection H as -> H. f_equal. apply IH. exact H.
Qed.

End Fetching.

(** ** Sampling *)

Section Sampling.

Variable Gen : Type.
Variable raw : Gen -> nat * Gen.
Variable manual_seed : nat -> Gen.

Lemma draw_spec (high : nat) (Hhigh : (0 < high)%nat) (size : nat) : forall g,
  List.length (fst (torch.draw raw high size g)) = size /\
  Forall (fun i => (i < high)%nat) (fst (torch.draw raw high size g)).
Proof.
  induction size as [|k IH]; intros g; simpl; [split; [reflexivity|constructor]|].
  destruct (raw g) as [r g1]. specialize (IH g1).
  destruct (torch.draw raw high k g1) as [rs g2]. simpl in *.
  destruct IH as [Hlen Hall]. split; [lia|].
  constructor; [apply Nat.mod_upper_bound; lia | exact Hall].
Qed.

(** Drawing [a + b] numbers is drawing [a] and then [b] more from where
    the first draws left the generator. *)
Lemma draw_app (high a b : nat) : forall g,
  torch.draw raw high (a + b) g
  = ((fst (torch.draw raw high a g)
      ++ fst (torch.draw raw high b (snd (torch.draw raw high a g))))%list,
     snd (torch.draw raw high b (snd (torch.draw raw high a g)))).
Proof.
  induction a as [|a IH]; intros g; cbn [Nat.add torch.draw].
  - simpl. destruct (torch.draw raw high b g); reflexivity.
  - destruct (raw g) as [r g1]. rewrite IH.
    destruct (torch.draw raw high a g1) as [xs g2]. reflexivity.
Qed.

Lemma randint_draws (high : nat) (Hhigh : (0 < high)%nat) (size : nat) g :
  torch.randint raw high size g
  = (Ok (fst (torch.draw raw high size g)), snd (torch.draw raw high size g)).
Proof.
  unfold torch.randint.
  destruct (Nat.eqb_spec high 0) as [|_]; [lia|].
  destruct (torch.draw raw high size g) as [xs g']. reflexivity.
Qed.

Lemma randint_rounds_draws (n : nat) (Hn : (0 < n)%nat) (k : nat) : forall g,
  torch.randint_rounds raw n k g
  = (Ok (fst (torch.draw raw n (32 * k) g)),
     snd (torch.draw raw n (32 * k) g)).
Proof.
  induction k as [|k IH]; intros g.
  - reflexivity.
  - cbn [torch.randint_rounds]. unfold bind.
    rewrite (randint_draws n Hn), IH. unfold ret.
    replace (32 * S k)%nat with (32 + 32 * k)%nat by lia.
    rewrite (draw_app n 32). reflexivity.
Qed.

(** The rounds of 32 and the remainder are [num_samples] successive
    draws of one generator. *)
Lemma RandomSampler_draws_spec (n : nat) (Hn : (0 < n)%nat) (num_samples : Z) g :
  (0 < num_samples)%Z ->
  torch.RandomSampler_draws raw n num_samples g
  = (Ok (fst (torch.draw raw n (Z.to_nat num_samples) g)),
     snd (torch.draw raw n (Z.to_nat num_samples) g)).
Proof.
  intros Hpos. unfold torch.RandomSampler_draws, bind.
  rewrite (randint_rounds_draws n Hn), (randint_draws n Hn). unfold ret.
  replace (Z.to_nat num_samples)
    with (32 * Z.to_nat (num_samples / 32) + Z.to_nat (num_samples mod 32))%nat.
  - rewrite (draw_app n). reflexivity.
  - pose proof (Z.div_mod num_samples 32 ltac:(lia)) as Heq.
    pose proof (Z.mod_pos_bound num_samples 32 ltac:(lia)) as Hmod.
    assert (0 <= num_samples / 32)%Z by (apply Z.div_pos; lia).
    lia.
Qed.

(** A random sampler over a non-empty dataset takes its seed from the
    default generator and yields [num_samples] successive draws of the
    generator made from that seed. *)
Lemma RandomSampler_iter_spec {Sample} (d : torch.Dataset Sample) (n : Z) g :
  d <> [] -> (0 < n)%Z ->
  torch.Sampler_iter raw manual_seed (torch.RandomSampler d n) g
  = (Ok (fst (torch.draw raw (torch.len d) (Z.to_nat n)
                (manual_seed (fst (raw g))))),
     snd (raw g)).
Proof.
  intros Hd Hn.
  assert (Hlen : (0 < torch.len d)%nat).
  { destruct d; [congruence | simpl; lia]. }
  cbn [torch.Sampler_iter]. destruct (raw g) as [seed g'].
  rewrite (RandomSampler_draws_spec _ Hlen) by exact Hn. reflexivity.
Qed.

(** Over an empty dataset the sampler has taken its seed when the
    first draw is refused. *)
Lemma RandomSampler_iter_empty {Sample} (n : Z) (g : Gen) :
  torch.Sampler_iter raw manual_seed (torch.RandomSampler (@nil Sample) n) g
  = (Raise (RuntimeError "random_ expects 'from' to be less than 'to'"),
     snd (raw g)).
Proof.
  cbn [torch.Sampler_iter torch.len List.length].
  destruct (raw g) as [seed g']. unfold torch.RandomSampler_draws, bind.
  destruct (Z.to_nat (n / 32)) as [|k]; reflexivity.
Qed.

End Sampling.

(** ** The batch providers *)

Section Providers.

Variable Sample : Type.
Variable Gen : Type.
Variable raw : Gen -> nat * Gen.
Variable manual_seed : nat -> Gen.

Implicit Types (w : Base.World Sample) (d : torch.Dataset Sample).

(** One pass of a loader whose sampler yields [idxs]: for a batch size
    that [islice] accepts, the loader takes its base seed, cuts [idxs]
    in order and fetches every batch. *)
Lemma DataLoader_pass d (nw b : Z) (s : torch.Sampler Sample) (idxs : list nat) :
  (0 < b <= torch.sys_maxsize)%Z ->
  Forall (fun i => (i < torch.len d)%nat) idxs ->
  let dl := torch.mkDataLoader Sample d nw
              (torch.mkBatchSampler Sample s b false) in
  let idx := torch.batch_loop (S (List.length idxs)) (Z.to_nat b) idxs in
  exists samples,
    List.concat idx = idxs /\
    batches_of (Z.to_nat b) idx /\
    List.length idx = ceil_div (List.length idxs) (Z.to_nat b) /\
    fetched d idx samples /\
    forall g g',
      torch.Sampler_iter raw manual_seed s (snd (raw g)) = (Ok idxs, g') ->
      torch.DataLoader_index_batches raw manual_seed dl g = (Ok idx, g') /\
      torch.DataLoader_iter raw manual_seed dl g = (Ok samples, g').
Proof.
  intros Hb Hall dl idx.
  assert (Hbs : (0 < Z.to_nat b)%nat) by lia.
  assert (Hcat : List.concat idx = idxs)
    by (apply (batch_loop_concat _ Hbs); lia).
  destruct (fetch_all_in_range Sample d idx) as (samples & Hs & Hf).
  { rewrite Hcat. exact Hall. }
  exists samples. repeat split; try assumption.
  - apply (batch_loop_batches_of _ Hbs). lia.
  - apply (batch_loop_length _ Hbs). lia.
  - unfold torch.DataLoader_index_batches, bind, torch.base_seed.
    destruct (raw g) as [seed g1]. cbn [snd] in H.
    unfold dl, torch.BatchSampler_iter.
    cbn [torch.batch_sampler torch.sampler torch.batch_size].
    destruct (Z.ltb_spec torch.sys_maxsize b); [lia|].
    unfold bind. rewrite H. reflexivity.
  - unfold torch.DataLoader_iter, torch.DataLoader_index_batches, bind,
      torch.base_seed.
    destruct (raw g) as [seed g1]. cbn [snd] in H.
    unfold dl, torch.BatchSampler_iter.
    cbn [torch.batch_sampler torch.sampler torch.batch_size torch.dataset].
    destruct (Z.ltb_spec torch.sys_maxsize b); [lia|].
    unfold bind. rewrite H. unfold ret, lift. fold idx. rewrite Hs. reflexivity.
Qed.

(** With a batch size beyond [sys.maxsize] a pass takes the base seed
    and then fails in [islice]. *)
Lemma DataLoader_pass_refused d (nw b : Z) (s : torch.Sampler Sample) g :
  (torch.sys_maxsize < b)%Z ->
  torch.DataLoader_iter raw manual_seed
    (torch.mkDataLoader Sample d nw (torch.mkBatchSampler Sample s b false)) g
  = (Raise (ValueError
              "Stop argument for islice() must be None or an integer: 0 <= x <= sys.maxsize."),
     snd (raw g)).
Proof.
  intros Hb.
  unfold torch.DataLoader_iter, torch.DataLoader_index_batches, bind,
    torch.base_seed, torch.BatchSampler_iter.
  cbn [torch.batch_sampler torch.batch_size].
  destruct (raw g) as [seed g1].
  destruct (Z.ltb_spec torch.sys_maxsize b); [reflexivity | lia].
Qed.

(** C3. On a non-empty training adapter [d].  With [num_samples <= 0]
    the request itself raises [ValueError].  With a positive sample
    count, a train batch size between 1 and [sys.maxsize] and a worker
    count that is not negative, [train_dataloader] returns a provider
    and one epoch, from any generator state, is exactly [num_samples]
    draws with replacement (successive numbers of the sampler's
    generator, each reduced to a valid index of [d], whatever the size
    of [d]), cut in draw order into
    [ceil(num_samples / train_batch_size)] batches of
    [train_batch_size] (only the last may be shorter, and none is when
    the batch size divides the count), each fetched from the adapter.
    With a batch size beyond [sys.maxsize] the provider is returned but
    a pass over it raises [ValueError]. *)
Theorem train_epoch_draws w d :
  Base.train_dataset (Base.self w) = Some d ->
  d <> [] ->
  ((Base.num_samples (Base.self w) <= 0)%Z ->
   Base.train_dataloader w
   = (Raise (ValueError "num_samples should be a positive integer value"), w)) /\
  ((0 < Base.num_samples (Base.self w))%Z ->
   (0 < Base.train_batch_size (Base.self w) <= torch.sys_maxsize)%Z ->
   (0 <= Base.num_workers (Base.self w))%Z ->
   train_epoch_yields raw manual_seed w d
     (Z.to_nat (Base.num_samples (Base.self w)))
     (Z.to_nat (Base.train_batch_size (Base.self w)))) /\
  ((0 < Base.num_samples (Base.self w))%Z ->
   (torch.sys_maxsize < Base.train_batch_size (Base.self w))%Z ->
   (0 <= Base.num_workers (Base.self w))%Z ->
   exists dl,
     Base.train_dataloader w = (Ok dl, w) /\
     forall g,
       torch.DataLoader_iter raw manual_seed dl g
       = (Raise (ValueError
                   "Stop argument for islice() must be None or an integer: 0 <= x <= sys.maxsize."),
          snd (raw g))).
Proof.
  intros Hd Hne. split; [|split].
  - intros Hn. rewrite (train_dataloader_with_adapter _ w d Hd).
    unfold torch.RandomSampler_init.
    destruct (Z.leb_spec (Base.num_samples (Base.self w)) 0); [reflexivity | lia].
  - intros Hn Hb Hw.
    eexists. split; [apply (train_dataloader_granted _ w d); (assumption || lia)|].
    intros g g1 draws.
    pose proof (RandomSampler_iter_spec Gen raw manual_seed d _ g1 Hne Hn)
      as Hsampler. fold draws in Hsampler.
    assert (Hlen : (0 < torch.len d)%nat).
    { destruct d; [congruence | simpl; lia]. }
    destruct (draw_spec Gen raw (torch.len d) Hlen
                (Z.to_nat (Base.num_samples (Base.self w)))
                (manual_seed (fst (raw g1)))) as [Hcount Hvalid].
    fold draws in Hcount, Hvalid.
    destruct (DataLoader_pass d (Base.num_workers (Base.self w))
                (Base.train_batch_size (Base.self w))
                (torch.RandomSampler d (Base.num_samples (Base.self w)))
                draws Hb Hvalid)
      as (samples & Hcat & Hof & Hbatches & Hf & Hpass).
    destruct (Hpass g _ Hsampler) as [Hidx Hiter].
    assert (Hbs : (0 < Z.to_nat (Base.train_batch_size (Base.self w)))%nat)
      by lia.
    set (idx := torch.batch_loop (S (List.length draws))
                  (Z.to_nat (Base.train_batch_size (Base.self w))) draws) in *.
    exists idx, samples.
    split; [exact Hsampler|]. split; [exact Hidx|]. split; [exact Hiter|].
    split; [exact Hcat|]. split; [exact Hcount|]. split; [exact Hvalid|].
    split; [exact Hof|]. rewrite Hcount in Hbatches.
    split; [exact Hbatches|]. split; [|exact Hf].
    intros Hmod. split.
    + apply (batches_of_exact _ Hbs); [exact Hof|].
      rewrite Hcat, Hcount. exact Hmod.
    + rewrite Hbatches. apply ceil_div_exact; assumption.
  - intros Hn Hb Hw.
    assert (Hmax : (0 < torch.sys_maxsize)%Z) by reflexivity.
    eexists. split; [apply (train_dataloader_granted _ w d); (assumption || lia)|].
    intros g. apply DataLoader_pass_refused. exact Hb.
Qed.

(** *** Validation and test *)

Lemma val_dataloader_with_adapter w d :
  Base.val_dataset (Base.self w) = Some d ->
  Base.val_dataloader w =
  (torch.DataLoader_init d (Base.eval_batch_size (Base.self w))
     (Base.num_workers (Base.self w)) None, w).
Proof.
  destruct w as [[tr va te tb eb nw ns dt dv ds] out built]; simpl.
  intros ->. reflexivity.
Qed.

Lemma test_dataloader_with_adapter w d :
  Base.test_dataset (Base.self w) = Some d ->
  Base.test_dataloader w =
  (torch.DataLoader_init d (Base.eval_batch_size (Base.self w))
     (Base.num_workers (Base.self w)) None, w).
Proof.
  destruct w as [[tr va te tb eb nw ns dt dv ds] out built]; simpl.
  intros ->. reflexivity.
Qed.

Lemma eval_dataloader_granted (split : EvalSplit) w d :
  eval_dataset split (Base.self w) = Some d ->
  (0 < Base.eval_batch_size (Base.self w))%Z ->
  (0 <= Base.num_workers (Base.self w))%Z ->
  eval_dataloader split w
  = (Ok (torch.mkDataLoader Sample d (Base.num_workers (Base.self w))
           (torch.mkBatchSampler Sample (torch.SequentialSampler d)
              (Base.eval_batch_size (Base.self w)) false)), w).
Proof.
  intros Hd Hb Hw.
  assert (Hinit : torch.DataLoader_init d (Base.eval_batch_size (Base.self w))
                    (Base.num_workers (Base.self w)) None
                  = Ok (torch.mkDataLoader Sample d
                          (Base.num_workers (Base.self w))
                          (torch.mkBatchSampler Sample (torch.SequentialSampler d)
                             (Base.eval_batch_size (Base.self w)) false))).
  { unfold torch.DataLoader_init, torch.BatchSampler_init.
    destruct (Z.ltb_spec (Base.num_workers (Base.self w)) 0); [lia|].
    destruct (Z.leb_spec (Base.eval_batch_size (Base.self w)) 0); [lia|].
    reflexivity. }
  destruct split; cbn [eval_dataset eval_dataloader] in *.
  - rewrite (val_dataloader_with_adapter w d Hd), Hinit. reflexivity.
  - rewrite (test_dataloader_with_adapter w d Hd), Hinit. reflexivity.
Qed.

(** C4. On an evaluation adapter [d] (validation or test), with a
    positive eval batch size [b] and a worker count that is not
    negative.  For [b <= sys.maxsize] the request returns a provider
    and one epoch, from any generator state, yields
    [ceil(len d / b)] batches: concatenated they are the items of [d]
    in index order, each index once, every batch holds [b] items except
    possibly a shorter last one, and a second pass right after the
    first yields the same batches.  For [b > sys.maxsize] the provider
    is returned but a pass over it raises [ValueError]. *)
Theorem eval_epoch_in_index_order (split : EvalSplit) w d :
  eval_dataset split (Base.self w) = Some d ->
  (0 < Base.eval_batch_size (Base.self w))%Z ->
  (0 <= Base.num_workers (Base.self w))%Z ->
  ((Base.eval_batch_size (Base.self w) <= torch.sys_maxsize)%Z ->
   eval_epoch_yields raw manual_seed split w d
     (Z.to_nat (Base.eval_batch_size (Base.self w)))) /\
  ((torch.sys_maxsize < Base.eval_batch_size (Base.self w))%Z ->
   exists dl,
     eval_dataloader split w = (Ok dl, w) /\
     forall g,
       torch.DataLoader_iter raw manual_seed dl g
       = (Raise (ValueError
                   "Stop argument for islice() must be None or an integer: 0 <= x <= sys.maxsize."),
          snd (raw g))).
Proof.
  intros Hd Hb Hw. split.
  - intros Hmax.
    eexists. split; [apply (eval_dataloader_granted split w d); assumption|].
    assert (Hvalid : Forall (fun i => (i < torch.len d)%nat)
                       (seq 0 (torch.len d))).
    { apply Forall_forall. intros i Hi. apply in_seq in Hi. lia. }
    destruct (DataLoader_pass d (Base.num_workers (Base.self w))
                (Base.eval_batch_size (Base.self w))
                (torch.SequentialSampler d) (seq 0 (torch.len d))
                (conj Hb Hmax) Hvalid)
      as (samples & Hcat & Hof & Hcount & Hf & Hpass).
    set (idx := torch.batch_loop (S (List.length (seq 0 (torch.len d))))
                  (Z.to_nat (Base.eval_batch_size (Base.self w)))
                  (seq 0 (torch.len d))) in *.
    rewrite length_seq in Hcount.
    assert (Hbs : (0 < Z.to_nat (Base.eval_batch_size (Base.self w)))%nat)
      by lia.
    pose proof (fetched_lengths Sample d idx samples Hf) as Hlens.
    assert (Hrun : forall g,
               torch.DataLoader_index_batches raw manual_seed
                 (torch.mkDataLoader Sample d (Base.num_workers (Base.self w))
                    (torch.mkBatchSampler Sample (torch.SequentialSampler d)
                       (Base.eval_batch_size (Base.self w)) false)) g
               = (Ok idx, snd (raw g)) /\
               torch.DataLoader_iter raw manual_seed
                 (torch.mkDataLoader Sample d (Base.num_workers (Base.self w))
                    (torch.mkBatchSampler Sample (torch.SequentialSampler d)
                       (Base.eval_batch_size (Base.self w)) false)) g
               = (Ok samples, snd (raw g))).
    { intros g. apply Hpass. reflexivity. }
    exists idx, samples.
    split; [intros g; apply Hrun|]. split; [intros g; apply Hrun|].
    split; [exact Hcat|]. split; [rewrite Hcat; apply seq_NoDup|].
    split; [apply (fetched_sequential Sample d idx samples); assumption|].
    split; [exact Hf|]. split; [exact Hof|].
    split; [apply (batches_of_same_lengths _ idx samples Hlens); exact Hof|].
    split; [exact Hcount|].
    split.
    + rewrite <- Hcount. symmetry.
      clear - Hlens. induction Hlens; simpl; congruence.
    + intros g first second. unfold first, second.
      rewrite !(proj2 (Hrun _)). split; reflexivity.
  - intros Hmax.
    eexists. split; [apply (eval_dataloader_granted split w d); assumption|].
    intros g. apply DataLoader_pass_refused. exact Hmax.
Qed.

End Providers.

(** *** The providers of the concrete deployment *)

Lemma train_epoch_draws_witness :
  train_epoch_yields Scenario.raw Scenario.manual_seed
    (Scenario.run [Base.call_setup (Some "fit")]
       (Scenario.instance Scenario.coco_args))
    Scenario.train_files 10 2.
Proof.
  destruct (train_epoch_draws Scenario.Sample nat Scenario.raw
              Scenario.manual_seed
              (Scenario.run [Base.call_setup (Some "fit")]
                 (Scenario.instance Scenario.coco_args))
              Scenario.train_files eq_refl ltac:(discriminate))
    as (_ & Hepoch & _).
  apply Hepoch.
  - reflexivity.
  - split; [reflexivity | vm_compute; discriminate].
  - discriminate.
Defined.

(** With [num_samples=10] and [train_batch_size=2] over the 3 training
    files, an epoch is 5 batches of 2 draws; from generator state 1: *)
Example train_epoch_scenario :
  let w := Scenario.run [Base.call_setup (Some "fit")]
             (Scenario.instance Scenario.coco_args) in
  exists dl,
    Base.train_dataloader w = (Ok dl, w) /\
    fst (torch.DataLoader_index_batches Scenario.raw Scenario.manual_seed dl 1%nat)
    = Ok [[0; 0]; [0; 2]; [1; 1]; [1; 0]; [1; 2]]%nat /\
    fst (torch.DataLoader_iter Scenario.raw Scenario.manual_seed dl 1%nat)
    = Ok [["t0.jpg"; "t0.jpg"]; ["t0.jpg"; "t2.jpg"]; ["t1.jpg"; "t1.jpg"];
          ["t1.jpg"; "t0.jpg"]; ["t1.jpg"; "t2.jpg"]].
Proof.
  eexists. split; [reflexivity|]. split; reflexivity.
Qed.

(** With [num_samples=0] the sampler refuses to be built: no provider,
    and so no epoch of zero draws. *)
Lemma train_epoch_zero_samples_refused :
  let w := Scenario.run [Base.call_setup (Some "fit")]
             (Scenario.instance Scenario.zero_samples_args) in
  Base.train_dataset (Base.self w) = Some Scenario.train_files /\
  Scenario.train_files <> [] /\
  Base.num_samples (Base.self w) = 0%Z /\
  Base.train_dataloader w
  = (Raise (ValueError "num_samples should be a positive integer value"), w) /\
  ~ train_epoch_yields Scenario.raw Scenario.manual_seed w Scenario.train_files
      (Z.to_nat (Base.num_samples (Base.self w)))
      (Z.to_nat (Base.train_batch_size (Base.self w))).
Proof.
  repeat split; try discriminate.
  intros (dl & Hdl & _). discriminate Hdl.
Qed.

Lemma eval_epoch_in_index_order_witness :
  eval_epoch_yields Scenario.raw Scenario.manual_seed test_split
    (Scenario.run
       [Base.call_setup (Some "fit"); Base.call_setup (Some "test")]
       (Scenario.instance Scenario.small_eval_args))
    Scenario.test_files 2.
Proof.
  destruct (eval_epoch_in_index_order Scenario.Sample nat Scenario.raw
              Scenario.manual_seed test_split
              (Scenario.run
                 [Base.call_setup (Some "fit"); Base.call_setup (Some "test")]
                 (Scenario.instance Scenario.small_eval_args))
              Scenario.test_files eq_refl eq_refl ltac:(discriminate))
    as [Hepoch _].
  apply Hepoch. vm_compute. discriminate.
Defined.

(** The 5 test files in batches of 2: 3 batches, in file order. *)
Example test_epoch_scenario :
  let w := Scenario.run
             [Base.call_setup (Some "fit"); Base.call_setup (Some "test")]
             (Scenario.instance Scenario.small_eval_args) in
  exists dl,
    Base.test_dataloader w = (Ok dl, w) /\
    forall g,
      fst (torch.DataLoader_iter Scenario.raw Scenario.manual_seed dl g)
      = Ok [["s0.jpg"; "s1.jpg"]; ["s2.jpg"; "s3.jpg"]; ["s4.jpg"]].
Proof.
  eexists. split; [reflexivity|]. intros g. reflexivity.
Qed.

(** With an eval batch size of [2 ^ 63], one more than [sys.maxsize],
    the validation provider is returned but no epoch can be iterated:
    the pass raises [ValueError]. *)
Lemma eval_epoch_huge_batch_refused :
  let w := Scenario.run [Base.call_setup (Some "fit")]
             (Scenario.instance Scenario.huge_eval_args) in
  Base.val_dataset (Base.self w) = Some Scenario.val_files /\
  (0 < Base.eval_batch_size (Base.self w))%Z /\
  (exists dl,
      Base.val_dataloader w = (Ok dl, w) /\
      forall g,
        fst (torch.DataLoader_iter Scenario.raw Scenario.manual_seed dl g)
        = Raise (ValueError
                   "Stop argument for islice() must be None or an integer: 0 <= x <= sys.maxsize.")) /\
  forall b,
    ~ eval_epoch_yields Scenario.raw Scenario.manual_seed val_split w
        Scenario.val_files b.
Proof.
  intros w. split; [reflexivity|]. split; [reflexivity|]. split.
  - eexists. split; [reflexivity|]. intros g. reflexivity.
  - intros b (dl & Hdl & idx & samples & _ & Hiter & _).
    cbn [eval_dataloader] in Hdl.
    assert (Hreq : Base.val_dataloader w
                   = (Ok (torch.mkDataLoader Scenario.Sample Scenario.val_files 4
                            (torch.mkBatchSampler Scenario.Sample
                               (torch.SequentialSampler Scenario.val_files)
                               (2 ^ 63) false)), w)) by reflexivity.
    rewrite Hreq in Hdl. injection Hdl as <-.
    specialize (Hiter 0%nat). discriminate Hiter.
Qed.

(** ** The configuration surface *)

Lemma add_to_group_last (gs : list argparse.ArgumentGroup) title l a :
  argparse.add_to_group (gs ++ [argparse.mkGroup title l])%list
    (List.length gs) a
  = (gs ++ [argparse.mkGroup title (l ++ [a])%list])%list.
Proof.
  induction gs as [|g gs IH]; simpl; [reflexivity|].
  rewrite IH. reflexivity.
Qed.

Lemma declares_snoc acts gs gs' a opt :
  argparse.declares (argparse.mkParser (acts ++ [a])%list gs) opt
  = argparse.declares (argparse.mkParser acts gs') opt
    || existsb (String.eqb opt) (argparse.option_strings a).
Proof.
  unfold argparse.declares. simpl. rewrite existsb_app. simpl.
  rewrite orb_false_r. reflexivity.
Qed.

(** Adding an option that is still free registers it on the parser and
    in the group. *)
Lemma add_argument_free acts gs title l opt help ty required default :
  argparse.declares (argparse.mkParser acts gs) opt = false ->
  argparse.add_argument (List.length gs) opt help ty required default
    (argparse.mkParser acts (gs ++ [argparse.mkGroup title l])%list)
  = (Ok tt,
     argparse.mkParser
       (acts ++ [argparse.mkAction [opt] help ty required default None])%list
       (gs ++ [argparse.mkGroup title
                 (l ++ [argparse.mkAction [opt] help ty required default None])
              ])%list).
Proof.
  intros Hfree. unfold argparse.add_argument.
  replace (argparse.declares
             (argparse.mkParser acts (gs ++ [argparse.mkGroup title l])%list)
             opt)
    with false by (rewrite <- Hfree; reflexivity).
  simpl. rewrite add_to_group_last. reflexivity.
Qed.

(** C9. On a parser where the five option strings are still free,
    [add_argparse_args] declares, on a group named after the class,
    exactly: [--data_dir] (str, required), [--train_batch_size] (int,
    default 16), [--eval_batch_size] (int, default 64), [--num_workers]
    (int, default 4), [--num_samples] (int, default 50000).  None of
    them restricts its values: every integer [int()] reads is accepted
    as it is, zero included, every string is accepted for [--data_dir],
    and [__init__] copies whatever numbers it is given. *)
Theorem add_argparse_args_declares (cls : Class) (p : argparse.ArgumentParser) :
  Forall (fun opt => argparse.declares p opt = false)
    ["--data_dir"; "--train_batch_size"; "--eval_batch_size";
     "--num_workers"; "--num_samples"] ->
  Base.add_argparse_args cls p
  = (Ok tt,
     argparse.mkParser
       (argparse._actions p ++ declared_options)%list
       (argparse._action_groups p
        ++ [argparse.mkGroup (__name__ cls) declared_options])%list) /\
  Forall (fun a => argparse.choices a = None) declared_options /\
  (forall a s z,
      In a declared_options -> argparse.type a = argparse.type_int ->
      int_of_string s = Ok z ->
      argparse._get_values a s = Ok (argparse.VInt z)) /\
  (forall a s,
      In a declared_options -> argparse.type a = argparse.type_str ->
      argparse._get_values a s = Ok (argparse.VStr s)) /\
  Forall (fun a => argparse.type a = argparse.type_int ->
                   argparse._get_values a "0" = Ok (argparse.VInt 0))
    declared_options /\
  (forall (Sample : Type) data_dir tb eb nw ns,
      exists train_dir val_dir test_dir,
        Coco._get_split_dirs data_dir = Ok (train_dir, val_dir, test_dir) /\
        Base.__init__ (Sample:=Sample) Coco.cls (args.mk data_dir tb eb nw ns)
        = Ok (Base.mkDataModule train_dir val_dir test_dir tb eb nw ns
                None None None)).
Proof.
  intros Hfree.
  assert (Hchoice : forall a, In a declared_options -> argparse.choices a = None).
  { intros a Ha. simpl in Ha.
    repeat (destruct Ha as [<- | Ha]; [reflexivity|]). destruct Ha. }
  split; [|split; [|split; [|split; [|split]]]].
  - destruct p as [acts gs].
    repeat match goal with
           | H : Forall _ (_ :: _) |- _ => inversion H; subst; clear H
           end.
    unfold Base.add_argparse_args, bind, argparse.add_argument_group, ret.
    cbn [argparse._actions argparse._action_groups].
    rewrite (add_argument_free acts gs) by assumption.
    rewrite add_argument_free
      by (rewrite (declares_snoc _ _ gs); apply orb_false_iff;
          split; [assumption | reflexivity]).
    rewrite add_argument_free
      by (rewrite !(declares_snoc _ _ gs); repeat (apply orb_false_iff; split);
          (assumption || reflexivity)).
    rewrite add_argument_free
      by (rewrite !(declares_snoc _ _ gs); repeat (apply orb_false_iff; split);
          (assumption || reflexivity)).
    rewrite add_argument_free
      by (rewrite !(declares_snoc _ _ gs); repeat (apply orb_false_iff; split);
          (assumption || reflexivity)).
    unfold declared_options. rewrite <- !app_assoc. reflexivity.
  - apply Forall_forall. exact Hchoice.
  - intros a s z Ha Hty Hint. unfold argparse._get_values, argparse._get_value,
      argparse._check_value. rewrite Hty, Hint, (Hchoice a Ha). reflexivity.
  - intros a s Ha Hty. unfold argparse._get_values, argparse._get_value,
      argparse._check_value. rewrite Hty, (Hchoice a Ha). reflexivity.
  - repeat constructor; intros; (discriminate || reflexivity).
  - intros Sample data_dir tb eb nw ns. do 3 eexists. split; reflexivity.
Qed.

Lemma add_argparse_args_declares_witness :
  Base.add_argparse_args Coco.cls (argparse.mkParser [] [])
  = (Ok tt,
     argparse.mkParser declared_options
       [argparse.mkGroup "Coco2014Reconstruction" declared_options]) /\
  argparse._get_values
    (argparse.mkAction ["--train_batch_size"] "batch size for training"
       argparse.type_int false (Some (argparse.VInt 16)) None) " -1_000 "
  = Ok (argparse.VInt (-1000)).
Proof.
  destruct (add_argparse_args_declares Coco.cls (argparse.mkParser [] []))
    as (Hdecl & _ & Hint & _).
  - repeat constructor.
  - split; [exact Hdecl|].
    apply Hint; [right; left; reflexivity | reflexivity | reflexivity].
Defined.

(** * Further properties of the module *)

(** ** Phases and the adapters they leave *)

Section Histories.

Variable Sample : Type.
Variable ReconstructionDataset : string -> torch.Dataset Sample.
Variable exists_ : string -> bool.

Implicit Types (w : Base.World Sample) (dm : Base.DataModule Sample)
  (stage : option string) (c : Base.Call) (history : list Base.Call).

Lemma entered_app (s : string) history history' :
  entered s (history ++ history')%list
  = entered s history || entered s history'.
Proof. apply existsb_app. Qed.

Lemma adapters_after_app history history' dm :
  adapters_after ReconstructionDataset history'
    (adapters_after ReconstructionDataset history dm)
  = adapters_after ReconstructionDataset (history ++ history')%list dm.
Proof.
  unfold adapters_after. rewrite !entered_app. simpl.
  destruct (entered "fit" history), (entered "fit" history'),
    (entered "test" history), (entered "test" history'); reflexivity.
Qed.

Lemma invoke_self c w :
  Base.self (Base.invoke ReconstructionDataset exists_ c w)
  = adapters_after ReconstructionDataset [c] (Base.self w).
Proof.
  destruct c as [|stage| | |]; cbn [Base.invoke].
  - rewrite prepare_data_world. destruct w as [[] out built]. reflexivity.
  - unfold adapters_after, entered; simpl. rewrite !orb_false_r.
    destruct (Base.stage_is stage "fit") eqn:Hfit.
    { apply stage_is_true in Hfit. subst stage.
      rewrite (setup_fit _ ReconstructionDataset w).
      destruct w as [[] out built]. reflexivity. }
    destruct (Base.stage_is stage "test") eqn:Htest.
    + apply stage_is_true in Htest. subst stage.
      destruct w as [[tr va te tb eb nw ns dt [v|] ds] out built];
        reflexivity.
    + rewrite setup_other by assumption.
      destruct w as [[] out built]. reflexivity.
  - rewrite train_dataloader_world. destruct w as [[] out built]. reflexivity.
  - rewrite val_dataloader_world. destruct w as [[] out built]. reflexivity.
  - rewrite test_dataloader_world. destruct w as [[] out built]. reflexivity.
Qed.

Lemma run_self history : forall w,
  Base.self (Base.run ReconstructionDataset exists_ history w)
  = adapters_after ReconstructionDataset history (Base.self w).
Proof.
  induction history as [|c history IH]; intros w.
  - destruct w as [[] out built]. reflexivity.
  - rewrite run_cons, IH, invoke_self, adapters_after_app. reflexivity.
Qed.

(** X2. Whatever the calls of a history and their order, and whether
    they raised or not, the instance they leave is determined by which
    phases were entered: the options and the split paths never change,
    an adapter whose phase was entered is the one built from its split
    path, and an adapter whose phase was not entered is as it was
    before (so no adapter is ever released). *)
Theorem run_self_determined_by_phases history w :
  Base.self (Base.run ReconstructionDataset exists_ history w)
  = adapters_after ReconstructionDataset history (Base.self w).
Proof. apply run_self. Qed.

Lemma invoke_constructed c w :
  Base.constructed (Base.invoke ReconstructionDataset exists_ c w)
  = (Base.constructed w ++ adapters_of_call (Base.self w) c)%list.
Proof.
  destruct c as [|stage| | |]; cbn [Base.invoke adapters_of_call].
  - rewrite prepare_data_world, app_nil_r. reflexivity.
  - destruct (Base.stage_is stage "fit") eqn:Hfit.
    { apply stage_is_true in Hfit. subst stage.
      rewrite (setup_fit _ ReconstructionDataset w). simpl.
      rewrite <- app_assoc. reflexivity. }
    destruct (Base.stage_is stage "test") eqn:Htest.
    + apply stage_is_true in Htest. subst stage.
      destruct (Base.val_dataset (Base.self w)) as [v|] eqn:Hv.
      * rewrite (setup_test_after_fit _ ReconstructionDataset w v Hv).
        reflexivity.
      * rewrite (setup_test_before_fit _ ReconstructionDataset w Hv).
        reflexivity.
    + rewrite setup_other by assumption. rewrite app_nil_r. reflexivity.
  - rewrite train_dataloader_world, app_nil_r. reflexivity.
  - rewrite val_dataloader_world, app_nil_r. reflexivity.
  - rewrite test_dataloader_world, app_nil_r. reflexivity.
Qed.

(** X3. Adapters are constructed by [setup] only, and only for the
    phase asked for: over any history the constructed adapters are, in
    order, the training and validation split for each [setup('fit')]
    and the test split for each [setup('test')]; [prepare_data], the
    three provider requests and [setup] with any other stage construct
    none. *)
Theorem run_constructs_per_phase history : forall w,
  Base.constructed (Base.run ReconstructionDataset exists_ history w)
  = (Base.constructed w
     ++ flat_map (adapters_of_call (Base.self w)) history)%list.
Proof.
  induction history as [|c history IH]; intros w; simpl flat_map.
  - rewrite app_nil_r. reflexivity.
  - rewrite run_cons, IH, invoke_constructed, invoke_self, <- app_assoc.
    reflexivity.
Qed.

(** *** Requests against the phases entered *)

Lemma train_dataloader_without_adapter w :
  Base.train_dataset (Base.self w) = None ->
  Base.train_dataloader w = (Raise (AttributeError "train_dataset"), w).
Proof.
  destruct w as [[tr va te tb eb nw ns dt dv ds] out built]; simpl.
  intros ->. reflexivity.
Qed.

Lemma val_dataloader_without_adapter w :
  Base.val_dataset (Base.self w) = None ->
  Base.val_dataloader w = (Raise (AttributeError "val_dataset"), w).
Proof.
  destruct w as [[tr va te tb eb nw ns dt dv ds] out built]; simpl.
  intros ->. reflexivity.
Qed.

(** X4. On a module that was constructed and has not entered ['fit'],
    whatever else was called, [train_dataloader] and [val_dataloader]
    raise [AttributeError] for the adapter they read and change
    nothing. *)
Theorem train_val_providers_need_fit cls a w0 history :
  Base.new cls a = Ok w0 ->
  entered "fit" history = false ->
  let w := Base.run ReconstructionDataset exists_ history w0 in
  Base.train_dataloader w = (Raise (AttributeError "train_dataset"), w) /\
  Base.val_dataloader w = (Raise (AttributeError "val_dataset"), w).
Proof.
  intros Hnew Hfit w.
  destruct (new_no_adapters _ _ _ _ Hnew) as (Htrain & Hval & _).
  pose proof (run_self history w0) as Hself. fold w in Hself.
  split.
  - apply train_dataloader_without_adapter. rewrite Hself. simpl.
    rewrite Hfit. exact Htrain.
  - apply val_dataloader_without_adapter. rewrite Hself. simpl.
    rewrite Hfit. exact Hval.
Qed.

(** X5. On a module that was constructed and has entered ['fit'],
    whatever else was called, [setup('test')] succeeds: it constructs
    one adapter, from the test split path, stores it, and prints one
    line, whose count is the size of the validation adapter. *)
Theorem setup_test_after_fit_stores_test cls a w0 history :
  Base.new cls a = Ok w0 ->
  entered "fit" history = true ->
  let w := Base.run ReconstructionDataset exists_ history w0 in
  Base.setup ReconstructionDataset (Some "test") w
  = (Ok tt,
     Base.mkWorld
       (Base.with_test_dataset
          (ReconstructionDataset (Base.test_dir (Base.self w))) (Base.self w))
       (Base.stdout w
        ++ [Base.loaded
              (torch.len (ReconstructionDataset (Base.val_dir (Base.self w))))
              "test"])%list
       (Base.constructed w ++ [Base.test_dir (Base.self w)])%list) /\
  Base.val_dataset (Base.self w)
  = Some (ReconstructionDataset (Base.val_dir (Base.self w))).
Proof.
  intros Hnew Hfit w.
  pose proof (run_self history w0) as Hself. fold w in Hself.
  assert (Hval : Base.val_dataset (Base.self w)
                 = Some (ReconstructionDataset (Base.val_dir (Base.self w)))).
  { rewrite Hself. simpl. rewrite Hfit. reflexivity. }
  split; [|exact Hval].
  apply (setup_test_after_fit _ ReconstructionDataset w _ Hval).
Qed.

End Histories.

Lemma train_val_providers_need_fit_witness :
  let w := Scenario.run
             [Base.call_prepare_data; Base.call_setup (Some "test");
              Base.call_setup None]
             (Scenario.instance Scenario.coco_args) in
  Base.train_dataloader w = (Raise (AttributeError "train_dataset"), w) /\
  Base.val_dataloader w = (Raise (AttributeError "val_dataset"), w).
Proof.
  apply (train_val_providers_need_fit Scenario.Sample
           Scenario.ReconstructionDataset Scenario.exists_
           Coco.cls Scenario.coco_args); reflexivity.
Defined.

Lemma setup_test_after_fit_stores_test_witness :
  let w := Scenario.run
             [Base.call_setup (Some "fit"); Base.call_val_dataloader]
             (Scenario.instance Scenario.coco_args) in
  Scenario.setup (Some "test") w
  = (Ok tt,
     Base.mkWorld
       (Base.with_test_dataset
          (Scenario.ReconstructionDataset (Base.test_dir (Base.self w)))
          (Base.self w))
       (Base.stdout w
        ++ [Base.loaded
              (torch.len
                 (Scenario.ReconstructionDataset (Base.val_dir (Base.self w))))
              "test"])%list
       (Base.constructed w ++ [Base.test_dir (Base.self w)])%list) /\
  Base.val_dataset (Base.self w)
  = Some (Scenario.ReconstructionDataset (Base.val_dir (Base.self w))).
Proof.
  apply (setup_test_after_fit_stores_test Scenario.Sample
           Scenario.ReconstructionDataset Scenario.exists_
           Coco.cls Scenario.coco_args); reflexivity.
Defined.

(** A history in the concrete deployment: the second ['fit'] rebuilds
    both adapters, and the failed ['test'] before it had already built
    its own. *)
Example run_scenario :
  let w := Scenario.run
             [Base.call_setup (Some "test"); Base.call_train_dataloader;
              Base.call_setup (Some "fit"); Base.call_setup (Some "fit")]
             (Scenario.instance Scenario.coco_args) in
  Base.constructed w
  = ["/coco/test2014"; "/coco/train2014"; "/coco/val2014";
     "/coco/train2014"; "/coco/val2014"] /\
  Base.stdout w
  = ["Loaded 3 train samples"; "Loaded 2 val samples";
     "Loaded 3 train samples"; "Loaded 2 val samples"] /\
  Base.self w
  = Base.self (Scenario.run
                 [Base.call_setup (Some "fit"); Base.call_setup (Some "test")]
                 (Scenario.instance Scenario.coco_args)).
Proof. repeat split. Qed.

(** ** When a provider is granted *)

Section ProviderRequests.

Variable Sample : Type.
Variable Gen : Type.
Variable raw : Gen -> nat * Gen.
Variable manual_seed : nat -> Gen.

Implicit Types (w : Base.World Sample) (d : torch.Dataset Sample).

Lemma DataLoader_init_outcome d (b nw : Z) (s : option (torch.Sampler Sample)) :
  ((0 < b)%Z /\ (0 <= nw)%Z /\
   exists dl, torch.DataLoader_init d b nw s = Ok dl) \/
  (~ ((0 < b)%Z /\ (0 <= nw)%Z) /\
   exists msg, torch.DataLoader_init d b nw s = Raise (ValueError msg)).
Proof.
  unfold torch.DataLoader_init, torch.BatchSampler_init.
  destruct (Z.ltb_spec nw 0); [right; split; [lia | eauto]|].
  destruct (Z.leb_spec b 0); [right; split; [lia | eauto]|].
  left. repeat split; try lia. eauto.
Qed.

(** X6. [train_dataloader] returns a provider exactly when the training
    adapter is in place and the sample count and the train batch size
    are positive and the worker count is not negative.  Without the
    adapter it raises [AttributeError]; with the adapter and an option
    out of range it raises [ValueError].  In every case the module is
    left as it was. *)
Theorem train_dataloader_granted_iff w :
  ((exists dl, fst (Base.train_dataloader w) = Ok dl) <->
   (exists d, Base.train_dataset (Base.self w) = Some d) /\
   (0 < Base.num_samples (Base.self w))%Z /\
   (0 < Base.train_batch_size (Base.self w))%Z /\
   (0 <= Base.num_workers (Base.self w))%Z) /\
  (Base.train_dataset (Base.self w) = None ->
   fst (Base.train_dataloader w) = Raise (AttributeError "train_dataset")) /\
  (Base.train_dataset (Base.self w) <> None ->
   ~ ((0 < Base.num_samples (Base.self w))%Z /\
      (0 < Base.train_batch_size (Base.self w))%Z /\
      (0 <= Base.num_workers (Base.self w))%Z) ->
   exists msg, fst (Base.train_dataloader w) = Raise (ValueError msg)) /\
  snd (Base.train_dataloader w) = w.
Proof.
  split; [|split; [|split]]; [| | |apply train_dataloader_world].
  - destruct (Base.train_dataset (Base.self w)) as [d|] eqn:Hd.
    + rewrite (train_dataloader_with_adapter _ w d Hd). simpl.
      unfold torch.RandomSampler_init.
      destruct (Z.leb_spec (Base.num_samples (Base.self w)) 0) as [Hn|Hn].
      * split; [intros [dl H]; discriminate H | intros (_ & H & _); lia].
      * destruct (DataLoader_init_outcome d
                    (Base.train_batch_size (Base.self w))
                    (Base.num_workers (Base.self w))
                    (Some (torch.RandomSampler d
                             (Base.num_samples (Base.self w)))))
          as [(Hb & Hw & dl & Hdl) | (Hnot & msg & Hdl)]; rewrite Hdl.
        -- split; [intros _; repeat split; eauto | eauto].
        -- split; [intros [dl H]; discriminate H | intros (_ & _ & H); tauto].
    + rewrite (train_dataloader_without_adapter _ w Hd). simpl.
      split; [intros [dl H]; discriminate H | intros ([d H] & _); discriminate H].
  - intros Hd. rewrite (train_dataloader_without_adapter _ w Hd). reflexivity.
  - intros Hd Hnot.
    destruct (Base.train_dataset (Base.self w)) as [d|] eqn:Hd'; [|congruence].
    rewrite (train_dataloader_with_adapter _ w d Hd'). simpl.
    unfold torch.RandomSampler_init.
    destruct (Z.leb_spec (Base.num_samples (Base.self w)) 0) as [Hn|Hn];
      [eauto|].
    destruct (DataLoader_init_outcome d
                (Base.train_batch_size (Base.self w))
                (Base.num_workers (Base.self w))
                (Some (torch.RandomSampler d (Base.num_samples (Base.self w)))))
      as [(Hb & Hw & dl & Hdl) | (_ & msg & Hdl)]; [tauto|].
    rewrite Hdl. eauto.
Qed.

(** X7. [val_dataloader] and [test_dataloader] return a provider
    exactly when their adapter is in place, the eval batch size is
    positive and the worker count is not negative; neither changes the
    module.  So the two requests stand or fall together once both
    adapters exist. *)
Theorem eval_dataloaders_granted_iff w :
  ((exists dl, fst (Base.val_dataloader w) = Ok dl) <->
   (exists d, Base.val_dataset (Base.self w) = Some d) /\
   (0 < Base.eval_batch_size (Base.self w))%Z /\
   (0 <= Base.num_workers (Base.self w))%Z) /\
  ((exists dl, fst (Base.test_dataloader w) = Ok dl) <->
   (exists d, Base.test_dataset (Base.self w) = Some d) /\
   (0 < Base.eval_batch_size (Base.self w))%Z /\
   (0 <= Base.num_workers (Base.self w))%Z) /\
  snd (Base.val_dataloader w) = w /\
  snd (Base.test_dataloader w) = w.
Proof.
  split; [|split; [|split]];
    [| |apply val_dataloader_world|apply test_dataloader_world].
  - destruct (Base.val_dataset (Base.self w)) as [d|] eqn:Hd.
    + rewrite (val_dataloader_with_adapter _ w d Hd). simpl.
      destruct (DataLoader_init_outcome d
                  (Base.eval_batch_size (Base.self w))
                  (Base.num_workers (Base.self w)) None)
        as [(Hb & Hw & dl & Hdl) | (Hnot & msg & Hdl)]; rewrite Hdl.
      * split; [intros _; repeat split; eauto | eauto].
      * split; [intros [dl H]; discriminate H | intros (_ & H); tauto].
    + rewrite (val_dataloader_without_adapter _ w Hd). simpl.
      split; [intros [dl H]; discriminate H | intros ([d H] & _); discriminate H].
  - destruct (Base.test_dataset (Base.self w)) as [d|] eqn:Hd.
    + rewrite (test_dataloader_with_adapter _ w d Hd). simpl.
      destruct (DataLoader_init_outcome d
                  (Base.eval_batch_size (Base.self w))
                  (Base.num_workers (Base.self w)) None)
        as [(Hb & Hw & dl & Hdl) | (Hnot & msg & Hdl)]; rewrite Hdl.
      * split; [intros _; repeat split; eauto | eauto].
      * split; [intros [dl H]; discriminate H | intros (_ & H); tauto].
    + rewrite (test_dataloader_without_adapter _ w Hd). simpl.
      split; [intros [dl H]; discriminate H | intros ([d H] & _); discriminate H].
Qed.

(** *** Providers over an empty split *)

(** X8. Over a training split without files the provider is still
    granted (for a positive sample count, a batch size between 1 and
    [sys.maxsize] and a worker count that is not negative), but an
    epoch cannot start: from every generator state the pass takes the
    loader's base seed and the sampler's seed and then raises
    [RuntimeError] at the first draw, before any batch is produced. *)
Theorem train_epoch_empty_adapter_raises w :
  Base.train_dataset (Base.self w) = Some [] ->
  (0 < Base.num_samples (Base.self w))%Z ->
  (0 < Base.train_batch_size (Base.self w) <= torch.sys_maxsize)%Z ->
  (0 <= Base.num_workers (Base.self w))%Z ->
  exists dl,
    Base.train_dataloader w = (Ok dl, w) /\
    forall g,
      torch.DataLoader_iter raw manual_seed dl g
      = (Raise (RuntimeError "random_ expects 'from' to be less than 'to'"),
         snd (raw (snd (raw g)))).
Proof.
  intros Hd Hn Hb Hw. eexists.
  split; [apply (train_dataloader_granted _ w []); (assumption || lia)|].
  intros g. unfold torch.DataLoader_iter, torch.DataLoader_index_batches,
    torch.BatchSampler_iter, bind, torch.base_seed.
  cbn [torch.batch_sampler torch.sampler torch.batch_size].
  destruct (raw g) as [seed g1]. cbn [snd].
  destruct (Z.ltb_spec torch.sys_maxsize
              (Base.train_batch_size (Base.self w))); [lia|].
  unfold bind. rewrite RandomSampler_iter_empty. reflexivity.
Qed.

(** X9. Over a validation or test split without files, with an eval
    batch size between 1 and [sys.maxsize] and a worker count that is
    not negative, the provider is granted and one epoch yields no batch
    and no error, from every generator state (of which it only takes
    the loader's base seed). *)
Theorem eval_epoch_empty_adapter (split : EvalSplit) w :
  eval_dataset split (Base.self w) = Some [] ->
  (0 < Base.eval_batch_size (Base.self w) <= torch.sys_maxsize)%Z ->
  (0 <= Base.num_workers (Base.self w))%Z ->
  exists dl,
    eval_dataloader split w = (Ok dl, w) /\
    forall g,
      torch.DataLoader_iter raw manual_seed dl g = (Ok [], snd (raw g)).
Proof.
  intros Hd Hb Hw. eexists.
  split; [apply (eval_dataloader_granted _ split w []); (assumption || lia)|].
  intros g. unfold torch.DataLoader_iter, torch.DataLoader_index_batches,
    torch.BatchSampler_iter, bind, torch.base_seed.
  cbn [torch.batch_sampler torch.sampler torch.batch_size].
  destruct (raw g) as [seed g1]. cbn [snd].
  destruct (Z.ltb_spec torch.sys_maxsize
              (Base.eval_batch_size (Base.self w))); [lia|].
  unfold bind, ret. cbn [torch.Sampler_iter torch.len List.length seq].
  unfold ret. rewrite batch_loop_nil. reflexivity.
Qed.

End ProviderRequests.

Lemma train_epoch_empty_adapter_raises_witness :
  let w := EmptySplits.run [Base.call_setup (Some "fit")]
             (Scenario.instance Scenario.coco_args) in
  exists dl,
    Base.train_dataloader w = (Ok dl, w) /\
    forall g,
      torch.DataLoader_iter Scenario.raw Scenario.manual_seed dl g
      = (Raise (RuntimeError "random_ expects 'from' to be less than 'to'"),
         snd (Scenario.raw (snd (Scenario.raw g)))).
Proof.
  apply (train_epoch_empty_adapter_raises Scenario.Sample nat Scenario.raw
           Scenario.manual_seed
           (EmptySplits.run [Base.call_setup (Some "fit")]
              (Scenario.instance Scenario.coco_args))).
  - reflexivity.
  - reflexivity.
  - split; [reflexivity | vm_compute; discriminate].
  - discriminate.
Defined.

Lemma eval_epoch_empty_adapter_witness :
  let w := EmptySplits.run
             [Base.call_setup (Some "fit"); Base.call_setup (Some "test")]
             (Scenario.instance Scenario.coco_args) in
  exists dl,
    Base.test_dataloader w = (Ok dl, w) /\
    forall g,
      torch.DataLoader_iter Scenario.raw Scenario.manual_seed dl g
      = (Ok [], snd (Scenario.raw g)).
Proof.
  apply (eval_epoch_empty_adapter Scenario.Sample nat Scenario.raw
           Scenario.manual_seed test_split
           (EmptySplits.run
              [Base.call_setup (Some "fit"); Base.call_setup (Some "test")]
              (Scenario.instance Scenario.coco_args))).
  - reflexivity.
  - split; [reflexivity | vm_compute; discriminate].
  - discriminate.
Defined.

(** ** Split paths of the Coco2014 variant *)

Lemma append_assoc (a b c : string) : (a ++ b) ++ c = a ++ b ++ c.
Proof.
  induction a as [|x a IH]; simpl; [reflexivity | rewrite IH; reflexivity].
Qed.

Lemma endswith_append_sep (s : string) :
  endswith (s ++ posixpath.sep) posixpath.sep = true.
Proof.
  induction s as [|c s IH]; [reflexivity|].
  cbn [append endswith]. rewrite IH. apply orb_true_r.
Qed.

Lemma append_empty_r (a b : string) : a ++ b = EmptyString -> b = EmptyString.
Proof. destruct a; [intros H; exact H | discriminate]. Qed.

(** A join with a non-empty last component is never empty. *)
Lemma join_nonempty (root name : string) :
  name <> EmptyString -> posixpath.join root [name] <> EmptyString.
Proof.
  intros Hname. unfold posixpath.join, posixpath.join_step; simpl.
  destruct (startswith name posixpath.sep); [exact Hname|].
  destruct (negb (truthy root) || endswith root posixpath.sep);
    intros H; apply append_empty_r in H;
    [contradiction | discriminate H].
Qed.

(** X10. A root given with a trailing separator resolves to the same
    three split paths as the root without it: no doubled separator
    appears. *)
Theorem coco_get_split_dirs_trailing_sep (R : string) :
  R <> EmptyString ->
  endswith R posixpath.sep = false ->
  Coco._get_split_dirs (R ++ posixpath.sep) = Coco._get_split_dirs R.
Proof.
  intros HR Hend.
  assert (HR' : R ++ posixpath.sep <> EmptyString)
    by (apply append_nonempty_l; exact HR).
  unfold Coco._get_split_dirs.
  rewrite !(join_relative (R ++ posixpath.sep)) by (assumption || reflexivity).
  rewrite !(join_relative R) by (assumption || reflexivity).
  unfold subdir. rewrite endswith_append_sep, Hend.
  rewrite !append_assoc. reflexivity.
Qed.

Lemma coco_get_split_dirs_trailing_sep_witness :
  Coco._get_split_dirs ("/data/coco" ++ posixpath.sep)
  = Coco._get_split_dirs "/data/coco".
Proof.
  apply (coco_get_split_dirs_trailing_sep "/data/coco");
    [discriminate | reflexivity].
Defined.

(** The two side conditions are needed: the empty root and the root
    directory differ, and a second separator is kept. *)
Example coco_get_split_dirs_separators :
  Coco._get_split_dirs EmptyString <> Coco._get_split_dirs posixpath.sep /\
  Coco._get_split_dirs "/coco//" <> Coco._get_split_dirs "/coco/".
Proof. split; discriminate. Qed.

Section CocoPrecondition.

Variable Sample : Type.
Variable exists_ : string -> bool.

Lemma prepare_data_result (w : Base.World Sample) :
  fst (Base.prepare_data exists_ w)
  = if (truthy (Base.train_dir (Base.self w))
        && exists_ (Base.train_dir (Base.self w)))
       && (truthy (Base.val_dir (Base.self w))
           && exists_ (Base.val_dir (Base.self w)))
       && (truthy (Base.test_dir (Base.self w))
           && exists_ (Base.test_dir (Base.self w)))
    then Ok tt else Raise AssertionError.
Proof.
  unfold Base.prepare_data, bind, Base.attr, Base.assert_, ret, raise.
  destruct (truthy (Base.train_dir (Base.self w))
            && exists_ (Base.train_dir (Base.self w)));
  destruct (truthy (Base.val_dir (Base.self w))
            && exists_ (Base.val_dir (Base.self w)));
  destruct (truthy (Base.test_dir (Base.self w))
            && exists_ (Base.test_dir (Base.self w))); reflexivity.
Qed.

(** X11. On a Coco2014 module, whatever [data_dir] was given (the empty
    string included), the three split paths are never empty, so
    [prepare_data] passes exactly when the three paths exist on disk
    and raises [AssertionError] exactly when one of them does not. *)
Theorem coco_prepare_data_checks_existence (a : args.t) (w : Base.World Sample) :
  Base.new Coco.cls a = Ok w ->
  (Base.train_dir (Base.self w)
   = posixpath.join (args.data_dir a) ["train2014"] /\
   Base.val_dir (Base.self w) = posixpath.join (args.data_dir a) ["val2014"] /\
   Base.test_dir (Base.self w)
   = posixpath.join (args.data_dir a) ["test2014"]) /\
  (Base.train_dir (Base.self w) <> EmptyString /\
   Base.val_dir (Base.self w) <> EmptyString /\
   Base.test_dir (Base.self w) <> EmptyString) /\
  (fst (Base.prepare_data exists_ w) = Ok tt <->
   exists_ (Base.train_dir (Base.self w)) = true /\
   exists_ (Base.val_dir (Base.self w)) = true /\
   exists_ (Base.test_dir (Base.self w)) = true) /\
  (fst (Base.prepare_data exists_ w) = Raise AssertionError <->
   exists_ (Base.train_dir (Base.self w)) = false \/
   exists_ (Base.val_dir (Base.self w)) = false \/
   exists_ (Base.test_dir (Base.self w)) = false).
Proof.
  intros Hnew. injection Hnew as <-. cbn [Base.self Base.train_dir
    Base.val_dir Base.test_dir].
  assert (H1 := join_nonempty (args.data_dir a) "train2014" ltac:(discriminate)).
  assert (H2 := join_nonempty (args.data_dir a) "val2014" ltac:(discriminate)).
  assert (H3 := join_nonempty (args.data_dir a) "test2014" ltac:(discriminate)).
  split; [repeat split|]. split; [repeat split; assumption|].
  rewrite prepare_data_result.
  cbn [Base.self Base.train_dir Base.val_dir Base.test_dir].
  rewrite !truthy_nonempty by assumption. cbn [andb].
  repeat match goal with
         | |- context [exists_ ?p] => destruct (exists_ p)
         end;
  cbn [andb]; split; split; intros; try reflexivity; try discriminate;
    intuition (try discriminate).
Qed.

End CocoPrecondition.

Lemma coco_prepare_data_checks_existence_witness :
  let w := Scenario.instance Scenario.coco_args in
  fst (Base.prepare_data Scenario.exists_no_test w) = Raise AssertionError <->
  Scenario.exists_no_test (Base.train_dir (Base.self w)) = false \/
  Scenario.exists_no_test (Base.val_dir (Base.self w)) = false \/
  Scenario.exists_no_test (Base.test_dir (Base.self w)) = false.
Proof.
  apply (coco_prepare_data_checks_existence Scenario.Sample
           Scenario.exists_no_test Scenario.coco_args
           (Scenario.instance Scenario.coco_args)).
  reflexivity.
Defined.

(** ** Option strings that are already taken *)





(** Two classes registering on one fresh parser: the second call
    raises, and leaves only an empty group of its own behind. *)
Example add_argparse_args_twice :
  let p1 := snd (Base.add_argparse_args Coco.cls (argparse.mkParser [] [])) in
  Base.add_argparse_args Base.cls p1
  = (Raise (ArgumentError "conflicting option string: --data_dir"),
     argparse.mkParser declared_options
       [argparse.mkGroup "Coco2014Reconstruction" declared_options;
        argparse.mkGroup "BaseReconstructionDataModule" []]).
Proof. reflexivity. Qed.
